(** * CloudLaunch base VM plugin: launch orchestration

    A shallow embedding of [baselaunch/backend_plugins/base_vm_app.py]
    (class [BaseVMAppPlugin]) and the properties of its launch steps.

    The plugin is Python glue around three outside parties: the CloudBridge
    provider object, the [requests] HTTP client and the task's progress sink.
    The embedding keeps the plugin's control flow as written and threads an
    explicit world through it: the provider's state (abstract, behind the
    [CloudProvider] interface), a script of HTTP answers, and the
    chronological trace of everything the plugin did to the outside. *)

From Stdlib Require Import ZArith List String Bool Lia.
From Equations Require Import Equations.
Import ListNotations.

Set Warnings "-register-all".

Local Open Scope string_scope.
Local Open Scope Z_scope.

(* ===================================================================== *)
(** ** Python values and exceptions                                       *)
(* ===================================================================== *)

(** The configuration objects handed to the plugin are parsed JSON.  Numbers
    are kept to integers; a dict is the list of its entries in order. *)
Inductive value : Type :=
| VNone
| VBool (b : bool)
| VInt (z : Z)
| VStr (s : string)
| VList (items : list value)
| VDict (entries : list (string * value)).

(** The subclasses of [Exception] that the plugin can meet.  [HTTPError],
    [ConnectionError] and [RequestException] are those of
    [requests.exceptions] (the last one stands for every other member of that
    family: read timeouts, malformed URLs); [CloudError] is anything raised
    from inside CloudBridge. *)
Inductive exn : Type :=
| AttributeError (msg : string)
| TypeError (msg : string)
| ValueError (msg : string)
| IndexError (msg : string)
| HTTPError (status_code : Z)
| ConnectionError (msg : string)
| RequestException (msg : string)
| CloudError (msg : string).

Inductive outcome (A : Type) : Type :=
| Ok (a : A)
| Raise (e : exn).
Arguments Ok {A} a.
Arguments Raise {A} e.

(** [bool(v)]. *)
Definition truthy (v : value) : bool :=
  match v with
  | VNone => false
  | VBool b => b
  | VInt z => negb (z =? 0)
  | VStr s => negb (String.eqb s "")
  | VList items => match items with [] => false | _ :: _ => true end
  | VDict entries => match entries with [] => false | _ :: _ => true end
  end.

(** [bool(xs)] for a Python list of provider objects. *)
Definition nonempty {A : Type} (xs : list A) : bool :=
  match xs with [] => false | _ :: _ => true end.

(** [a or b]. *)
Definition py_or (a b : value) : value := if truthy a then a else b.

(** [v == s] for a string literal [s]. *)
Definition eq_str (v : value) (s : string) : bool :=
  match v with
  | VStr t => String.eqb t s
  | _ => false
  end.

Fixpoint assoc (key : string) (entries : list (string * value)) : option value :=
  match entries with
  | [] => None
  | (k, v) :: rest => if String.eqb k key then Some v else assoc key rest
  end.

(** [obj.get(key, default)]: only a dict has the method. *)
Definition dict_get (obj : value) (key : string) (default : value) : outcome value :=
  match obj with
  | VDict entries =>
      Ok (match assoc key entries with Some v => v | None => default end)
  | _ => Raise (AttributeError "object has no attribute 'get'")
  end.

Fixpoint chars (s : string) : list value :=
  match s with
  | EmptyString => []
  | String c rest => VStr (String c EmptyString) :: chars rest
  end.

(** What [for x in v] walks through. *)
Definition py_iter (v : value) : outcome (list value) :=
  match v with
  | VList items => Ok items
  | VDict entries => Ok (map (fun kv => VStr (fst kv)) entries)
  | VStr s => Ok (chars s)
  | _ => Raise (TypeError "object is not iterable")
  end.

(** [xs[0]]. *)
Definition index0 {A : Type} (xs : list A) : outcome A :=
  match xs with
  | x :: _ => Ok x
  | [] => Raise (IndexError "list index out of range")
  end.

(** The interpreter's reading of a string as an integer literal is left to
    the runtime. *)
Class Builtins : Type := {
  int_of_str : string -> option Z
}.

(** [int(v)]. *)
Definition py_int `{Builtins} (v : value) : outcome Z :=
  match v with
  | VInt z => Ok z
  | VBool b => Ok (if b then 1 else 0)
  | VStr s =>
      match int_of_str s with
      | Some z => Ok z
      | None => Raise (ValueError "invalid literal for int() with base 10")
      end
  | _ => Raise (TypeError "int() argument must be a string or a number")
  end.

(* ===================================================================== *)
(** ** Provider objects                                                   *)
(* ===================================================================== *)

Record KeyPair : Type := {
  kp_id : string;
  kp_name : string;
  kp_material : option string
}.

Record SecurityGroup : Type := {
  sg_id : string;
  sg_name : string
}.

Record Network : Type := { net_id : string }.

Record Image : Type := { image_id : string }.

(** A floating IP as listed by the provider: its address, a string or
    [None], and whether it is attached to something. *)
Record FloatingIP : Type := {
  public_ip : option string;
  in_use : bool
}.

Record Instance : Type := {
  inst_id : string;
  public_ips : list (option string)
}.

Record BlockDevice : Type := {
  is_volume : bool;
  source : option Image;
  is_root : bool;
  size : Z
}.

Record LaunchConfig : Type := { block_devices : list BlockDevice }.

(** The argument of [sg.add_rule]. *)
Inductive rule_request : Type :=
| SrcGroup (src_group : SecurityGroup)
| Explicit (ip_protocol from_port to_port cidr_ip : value).

(** The keyword arguments of [provider.compute.instances.create]. *)
Record create_request : Type := {
  req_name : string;
  req_image : option Image;
  req_instance_type : value;
  req_subnet : value;
  req_key_pair : KeyPair;
  req_security_groups : list (option SecurityGroup);
  req_zone : value;
  req_user_data : value;
  req_launch_config : option LaunchConfig
}.

Record CloudVersionConfig : Type := {
  cvc_cloud : string;
  cvc_image_id : value;
  cvc_default_instance_type : value
}.

(* ===================================================================== *)
(** ** The outside world                                                  *)
(* ===================================================================== *)

(** Every entry point of CloudBridge that the plugin uses, with the
    arguments it is given. *)
Inductive call : Type :=
| GetCloudProvider (cloud : string) (credentials : value)
| ImagesGet (id : value)
| KeyPairsFind (name : value)
| KeyPairsCreate (name : value)
| SecurityGroupsFind (name : value)
| SecurityGroupsCreate (name description network_id : value)
| AddRule (sg : SecurityGroup) (rule : rule_request)
| GetOrCreateDefault
| FloatingIps
| CreateFloatingIp
| CreateLaunchConfig
| AddVolumeDevice (lc : LaunchConfig) (src : option Image) (gb : Z) (root : bool)
| InstancesCreate (req : create_request)
| WaitTillReady (inst : Instance)
| AddFloatingIp (inst : Instance) (ip : value)
| Refresh (inst : Instance).

(** What each of them hands back.  A method that updates the object it is
    called on ([lc.add_volume_device], [inst.wait_till_ready],
    [inst.add_floating_ip], [inst.refresh]) hands back the object as it
    stands afterwards. *)
Definition answer (c : call) : Type :=
  match c with
  | GetCloudProvider _ _ => unit
  | ImagesGet _ => option Image
  | KeyPairsFind _ => list KeyPair
  | KeyPairsCreate _ => KeyPair
  | SecurityGroupsFind _ => list SecurityGroup
  | SecurityGroupsCreate _ _ _ => SecurityGroup
  | AddRule _ _ => unit
  | GetOrCreateDefault => option Network
  | FloatingIps => list FloatingIP
  | CreateFloatingIp => FloatingIP
  | CreateLaunchConfig => LaunchConfig
  | AddVolumeDevice _ _ _ _ => LaunchConfig
  | InstancesCreate _ => Instance
  | WaitTillReady _ => Instance
  | AddFloatingIp _ _ => Instance
  | Refresh _ => Instance
  end.

(** A cloud provider: some state [P], an answer (or an exception) and a next
    state for every call, and the [==] of its security-group objects.
    Nothing is assumed of any of them. *)
Class CloudProvider (P : Type) : Type := {
  respond : forall c : call, P -> outcome (answer c) * P;
  sg_eqb : SecurityGroup -> SecurityGroup -> bool
}.

(** The pieces a printed or reported line is made of. *)
Inductive piece : Type :=
| PVal (v : value)
| PStr (s : string)
| PSg (sg : option SecurityGroup)
| PExn (e : exn).

(** A [%]-formatted line: the template and what fills its slots. *)
Record message : Type := { template : string; slots : list piece }.

(** What the plugin does to the outside, one entry per action. *)
Inductive event : Type :=
| Called (c : call) (raised : option exn)
| Printed (line : message)
| Slept (seconds : Z)
| Head (url : string)
| StateUpdated (state : string) (action : message).

Record Response : Type := { status_code : Z }.

(** How the body of a [for] loop ends: it falls through to the next item, or
    it executes [return r]. *)
Inductive flow (R : Type) : Type :=
| Next
| Return (r : R).
Arguments Next {R}.
Arguments Return {R} r.

Section Plugin.

Context {P : Type} `{CloudProvider P} `{Builtins}.

(** The world of one run: the provider, the answer the [n]-th HEAD request
    of the run gets, how many HEAD requests were sent, and the trace. *)
Record World : Type := {
  cloud : P;
  net : nat -> string -> outcome Response;
  heads_done : nat;
  trace : list event
}.

Definition log (e : event) (w : World) : World :=
  {| cloud := cloud w; net := net w; heads_done := heads_done w;
     trace := trace w ++ [e] |}.

(** The world [w] after the provider moved to [p] and [evs] were logged. *)
Definition moved (w : World) (p : P) (evs : list event) : World :=
  {| cloud := p; net := net w; heads_done := heads_done w;
     trace := trace w ++ evs |}.

(** A computation of the plugin: it ends with a value or a raised exception,
    in a new world. *)
Definition M (A : Type) : Type := World -> outcome A * World.

Definition ret {A : Type} (a : A) : M A := fun w => (Ok a, w).

Definition raise {A : Type} (e : exn) : M A := fun w => (Raise e, w).

Definition bind {A B : Type} (m : M A) (k : A -> M B) : M B :=
  fun w =>
    match m w with
    | (Ok a, w1) => k a w1
    | (Raise e, w1) => (Raise e, w1)
    end.

(** [try: body except Exception as e: handler]. *)
Definition try_except {A : Type} (body : M A) (handler : exn -> M A) : M A :=
  fun w =>
    match body w with
    | (Ok a, w1) => (Ok a, w1)
    | (Raise e, w1) => handler e w1
    end.

Definition lift {A : Type} (o : outcome A) : M A := fun w => (o, w).

Definition raised_by {A : Type} (o : outcome A) : option exn :=
  match o with Ok _ => None | Raise e => Some e end.

(** A call into CloudBridge. *)
Definition invoke (c : call) : M (answer c) :=
  fun w =>
    let '(o, p1) := respond c (cloud w) in
    (o, {| cloud := p1; net := net w; heads_done := heads_done w;
           trace := trace w ++ [Called c (raised_by o)] |}).

(** The CloudBridge entry points, under the names the plugin calls them by. *)
Definition key_pairs_find (name : value) : M (list KeyPair) :=
  invoke (KeyPairsFind name).
Definition key_pairs_create (name : value) : M KeyPair :=
  invoke (KeyPairsCreate name).
Definition security_groups_find (name : value) : M (list SecurityGroup) :=
  invoke (SecurityGroupsFind name).
Definition security_groups_create (name description network_id : value)
  : M SecurityGroup :=
  invoke (SecurityGroupsCreate name description network_id).
Definition add_rule (sg : SecurityGroup) (rule : rule_request) : M unit :=
  invoke (AddRule sg rule).
Definition get_or_create_default : M (option Network) :=
  invoke GetOrCreateDefault.
Definition floating_ips : M (list FloatingIP) := invoke FloatingIps.
Definition create_floating_ip : M FloatingIP := invoke CreateFloatingIp.
Definition create_launch_config : M LaunchConfig := invoke CreateLaunchConfig.
Definition add_volume_device (lc : LaunchConfig) (src : option Image)
    (gb : Z) (root : bool) : M LaunchConfig :=
  invoke (AddVolumeDevice lc src gb root).
Definition get_cloud_provider (cloud : string) (credentials : value) : M unit :=
  invoke (GetCloudProvider cloud credentials).
Definition images_get (id : value) : M (option Image) := invoke (ImagesGet id).
Definition instances_create (req : create_request) : M Instance :=
  invoke (InstancesCreate req).
Definition wait_till_ready (inst : Instance) : M Instance :=
  invoke (WaitTillReady inst).
Definition add_floating_ip (inst : Instance) (ip : value) : M Instance :=
  invoke (AddFloatingIp inst ip).
Definition refresh (inst : Instance) : M Instance := invoke (Refresh inst).

Definition print (line : message) : M unit :=
  fun w => (Ok tt, log (Printed line) w).

(** [task.update_state(state=..., meta={'action': ...})]. *)
Definition update_state (state : string) (action : message) : M unit :=
  fun w => (Ok tt, log (StateUpdated state action) w).

(** [time.sleep]: a negative length is refused. *)
Definition time_sleep (seconds : Z) : M unit :=
  fun w =>
    if seconds <? 0
    then (Raise (ValueError "sleep length must be non-negative"), w)
    else (Ok tt, log (Slept seconds) w).

(** [requests.head(url)]. *)
Definition requests_head (url : string) : M Response :=
  fun w =>
    (net w (heads_done w) url,
     {| cloud := cloud w; net := net w; heads_done := S (heads_done w);
        trace := trace w ++ [Head url] |}).

(** [r.raise_for_status()]. *)
Definition raise_for_status (r : Response) : M unit :=
  if (400 <=? status_code r) && (status_code r <? 600)
  then raise (HTTPError (status_code r))
  else ret tt.

Notation "x <- m ;; k" := (bind m (fun x => k))
  (at level 61, m at next level, right associativity).

(** [for x in xs: body].  [None] when the loop runs out of items, [Some r]
    when the body returned [r] from the enclosing function. *)
Fixpoint for_each {A R : Type} (xs : list A) (body : A -> M (flow R))
  : M (option R) :=
  match xs with
  | [] => ret None
  | x :: rest =>
      f <- body x ;;
      match f with
      | Next => for_each rest body
      | Return r => ret (Some r)
      end
  end.

(* ===================================================================== *)
(** ** BaseVMAppPlugin                                                    *)
(* ===================================================================== *)

Definition _get_or_create_kp (kp_name : value) : M KeyPair :=
  kps <- key_pairs_find kp_name ;;
  if nonempty kps
  then lift (index0 kps)
  else key_pairs_create kp_name.

Definition _get_network_id (cloudlaunch_config : value) : M value :=
  net_id0 <- lift (dict_get cloudlaunch_config "network" VNone) ;;
  if negb (truthy net_id0)
  then
    net <- get_or_create_default ;;
    match net with
    | Some n => ret (VStr (net_id n))
    | None => ret net_id0
    end
  else ret net_id0.

Definition _get_or_create_sg (cloudlaunch_config sg_name description : value)
  : M SecurityGroup :=
  sgs <- security_groups_find sg_name ;;
  found <- for_each sgs (fun sg1 =>
             inner <- for_each sgs (fun sg2 =>
                        if sg_eqb sg1 sg2 then ret (Return sg1) else ret Next) ;;
             match inner with
             | Some sg => ret (Return sg)
             | None => ret Next
             end) ;;
  match found with
  | Some sg => ret sg
  | None =>
      network_id <- _get_network_id cloudlaunch_config ;;
      security_groups_create sg_name description network_id
  end.

Definition _get_cb_launch_config (image : option Image)
    (cloudlaunch_config : value) : M (option LaunchConfig) :=
  let lc : option LaunchConfig := None in
  storage <- lift (dict_get cloudlaunch_config "rootStorageType"
                     (VStr "instance")) ;;
  if eq_str storage "volume"
  then
    lc1 <- match lc with
           | None => create_launch_config
           | Some c => ret c
           end ;;
    raw <- lift (dict_get cloudlaunch_config "rootStorageSize" (VInt 20)) ;;
    gb <- lift (py_int raw) ;;
    lc2 <- add_volume_device lc1 image gb true ;;
    ret (Some lc2)
  else ret lc.

(** The body of the [try] of [apply_app_firewall_settings]. *)
Definition add_rule_to (sg : SecurityGroup) (rule : value) : M unit :=
  src <- lift (dict_get rule "src_group" VNone) ;;
  if truthy src
  then
    add_rule sg (SrcGroup sg)
  else
    protocol <- lift (dict_get rule "protocol" VNone) ;;
    from <- lift (dict_get rule "from" VNone) ;;
    to <- lift (dict_get rule "to" VNone) ;;
    cidr <- lift (dict_get rule "cidr" VNone) ;;
    add_rule sg (Explicit protocol from to cidr).

(** One turn of the loop over the rules of a group: the [try] and its
    [except Exception as e: print(e)]. *)
Definition apply_rule (sg : SecurityGroup) (rule : value) : M (flow SecurityGroup) :=
  _ <- try_except (add_rule_to sg rule)
         (fun e => print {| template := "%s"; slots := [PExn e] |}) ;;
  ret Next.

(** One turn of the loop over the firewall groups, up to its [return sg]. *)
Definition apply_group (cloudlaunch_config group : value) : M SecurityGroup :=
  n <- lift (dict_get group "securityGroup" VNone) ;;
  let sg_name := py_or n (VStr "CloudLaunchDefault") in
  d <- lift (dict_get group "description" VNone) ;;
  let sg_desc := py_or d (VStr "Created by CloudLaunch") in
  sg <- _get_or_create_sg cloudlaunch_config sg_name sg_desc ;;
  rs <- lift (dict_get group "rules" (VList [])) ;;
  rules <- lift (py_iter rs) ;;
  _ <- for_each rules (apply_rule sg) ;;
  ret sg.

Definition apply_app_firewall_settings (cloudlaunch_config : value)
  : M (option SecurityGroup) :=
  fw <- lift (dict_get cloudlaunch_config "firewall" (VList [])) ;;
  groups <- lift (py_iter fw) ;;
  for_each groups (fun group =>
    sg <- apply_group cloudlaunch_config group ;;
    ret (Return sg)).

(** The request that a well-formed rule of the configuration stands for: a
    rule naming a [src_group] opens the group to itself, whatever else it
    says; any other rule carries its protocol, ports and CIDR. *)
Definition request_of (sg : SecurityGroup) (rule : list (string * value))
  : rule_request :=
  let field key := match assoc key rule with Some v => v | None => VNone end in
  if truthy (field "src_group")
  then SrcGroup sg
  else Explicit (field "protocol") (field "from") (field "to") (field "cidr").

(** What one rule of a group leaves in the trace: the request alone when
    the provider accepts it; the request and the printed exception when the
    provider refuses it; the printed exception alone when the rule is not
    even a dict. *)
Inductive rule_block (sg : SecurityGroup) : value -> list event -> Prop :=
| rule_added (rule : list (string * value)) :
    rule_block sg (VDict rule)
      [Called (AddRule sg (request_of sg rule)) None]
| rule_refused (rule : list (string * value)) (e : exn) :
    rule_block sg (VDict rule)
      [Called (AddRule sg (request_of sg rule)) (Some e);
       Printed {| template := "%s"; slots := [PExn e] |}]
| rule_malformed (rule : value) (e : exn) :
    dict_get rule "src_group" VNone = Raise e ->
    rule_block sg rule [Printed {| template := "%s"; slots := [PExn e] |}].

(** The [try] of [wait_for_http] with its two [except] clauses: [Return tt]
    for the two [return]s, [Next] when control reaches [count += 1]. *)
Definition probe (url : string) : M (flow unit) :=
  try_except
    (r <- requests_head url ;;
     _ <- raise_for_status r ;;
     ret (Return tt))
    (fun e =>
       match e with
       | HTTPError code =>
           if (code =? 401) || (code =? 403) then ret (Return tt) else ret Next
       | ConnectionError _ => ret Next
       | _ => raise e
       end).

(** The [while count < max_retries] loop, from a given [count]. *)
Equations? wait_loop (url : string) (max_retries poll_interval count : Z)
    (w : World) : outcome unit * World
    by wf (Z.to_nat (max_retries - count)) lt :=
  wait_loop url max_retries poll_interval count w
    with Z_lt_dec count max_retries := {
    | right _ => (Ok tt, w)
    | left _ with time_sleep poll_interval w := {
      | (Raise e, w1) => (Raise e, w1)
      | (Ok _, w1) with probe url w1 := {
        | (Raise e, w2) => (Raise e, w2)
        | (Ok (Return _), w2) => (Ok tt, w2)
        | (Ok Next, w2) =>
            wait_loop url max_retries poll_interval (count + 1) w2 } } }.
Proof. lia. Qed.

Definition wait_for_http (url : string) (max_retries poll_interval : Z)
  : M unit :=
  let count := 0 in
  wait_loop url max_retries poll_interval count.

(** What one turn of the loop makes of the answer to its request. *)
Definition verdict (o : outcome Response) : outcome (flow unit) :=
  match o with
  | Ok r =>
      if (400 <=? status_code r) && (status_code r <? 600)
      then
        if (status_code r =? 401) || (status_code r =? 403)
        then Ok (Return tt)
        else Ok Next
      else Ok (Return tt)
  | Raise (HTTPError code) =>
      if (code =? 401) || (code =? 403) then Ok (Return tt) else Ok Next
  | Raise (ConnectionError _) => Ok Next
  | Raise e => Raise e
  end.

(** The answers a probe can get, as [wait_for_http] tells them apart. *)
Definition ready (o : outcome Response) : Prop :=
  exists r : Response,
    o = Ok r /\
    (200 <= status_code r < 300 \/ status_code r = 401 \/ status_code r = 403).

Definition connection_failure (o : outcome Response) : Prop :=
  exists msg : string, o = Raise (ConnectionError msg).

Definition other_http_error (o : outcome Response) : Prop :=
  exists r : Response,
    o = Ok r /\ 400 <= status_code r < 600 /\
    status_code r <> 401 /\ status_code r <> 403.

(** The world after one more sleep and one more probe. *)
Definition after_cycle (url : string) (poll_interval : Z) (w : World) : World :=
  {| cloud := cloud w; net := net w; heads_done := S (heads_done w);
     trace := trace w ++ [Slept poll_interval; Head url] |}.

Fixpoint after_cycles (n : nat) (url : string) (poll_interval : Z) (w : World)
  : World :=
  match n with
  | O => w
  | S n' => after_cycles n' url poll_interval (after_cycle url poll_interval w)
  end.

Definition default_max_retries : Z := 200.
Definition default_poll_interval : Z := 5.

(** [m] adds to the trace only events that satisfy [Q], and a value it
    ends on satisfies [R]. *)
Definition emits {A : Type} (Q : event -> Prop) (R : A -> Prop) (m : M A)
  : Prop :=
  forall w : World,
  exists evs : list event,
    trace (snd (m w)) = (trace w ++ evs)%list /\
    Forall Q evs /\
    forall a : A, fst (m w) = Ok a -> R a.

Definition anything {A : Type} : A -> Prop := fun _ => True.

(** The event is not an instance creation, or it is one that asks for the
    security groups [sgs]. *)
Definition creates_with (sgs : list (option SecurityGroup)) (e : event) : Prop :=
  forall (req : create_request) (raised : option exn),
    e = Called (InstancesCreate req) raised -> req_security_groups req = sgs.

(** An address, as the Python value it is. *)
Definition address_value (ip : option string) : value :=
  match ip with
  | Some a => VStr a
  | None => VNone
  end.

Definition shown_address (ip : option string) : piece :=
  match ip with
  | Some a => PStr a
  | None => PVal VNone
  end.

(** The scan of [attach_public_ip]: [fip] is overwritten by every listed
    address that is not in use. *)
Definition scan_floating_ips (fips : list FloatingIP) (fip : option FloatingIP)
  : option FloatingIP :=
  fold_left (fun fip ip => if negb (in_use ip) then Some ip else fip) fips fip.

Definition attach_public_ip (inst : Instance) : M (option string) :=
  if negb (nonempty (public_ips inst))
  then
    let fip := None in
    fips <- floating_ips ;;
    let fip := scan_floating_ips fips fip in
    fip <- match fip with
           | Some ip =>
               _ <- print {| template := "Attaching an existing floating IP %s";
                             slots := [shown_address (public_ip ip)] |} ;;
               _ <- add_floating_ip inst (address_value (public_ip ip)) ;;
               ret ip
           | None =>
               ip <- create_floating_ip ;;
               _ <- add_floating_ip inst (address_value (public_ip ip)) ;;
               ret ip
           end ;;
    ret (public_ip fip)
  else if (0 <? List.length (public_ips inst))%nat
  then
    ip <- lift (index0 (public_ips inst)) ;;
    ret ip
  else ret None.

(** The dict that [launch_app] returns under ['cloudLaunch'].  The
    ['applicationURL'] key is only set by the base application. *)
Record LaunchResult : Type := {
  keyPair : string * string * option string;
  securityGroup : string * string;
  instance : string;
  publicIP : option string;
  applicationURL : option string
}.

(** [sg.id] and [sg.name] of what [apply_app_firewall_settings] returned. *)
Definition id_and_name (sg : option SecurityGroup) : outcome (string * string) :=
  match sg with
  | Some g => Ok (sg_id g, sg_name g)
  | None => Raise (AttributeError "'NoneType' object has no attribute 'id'")
  end.

(** [bool(results['publicIP'])]. *)
Definition has_address (ip : option string) : bool :=
  match ip with
  | Some a => negb (String.eqb a "")
  | None => false
  end.

(** [launch_app]; [base_app] is the plugin's attribute of that name, which
    [__init__] sets. *)
Definition launch_app (base_app : bool) (name : string)
    (cloud_version_config : CloudVersionConfig)
    (credentials app_config user_data : value) : M LaunchResult :=
  cloudlaunch_config <- lift (dict_get app_config "config_cloudlaunch"
                                (VDict [])) ;;
  _ <- get_cloud_provider (cvc_cloud cloud_version_config) credentials ;;
  custom_image_id <- lift (dict_get cloudlaunch_config "customImageID" VNone) ;;
  img <- images_get (py_or custom_image_id
                       (cvc_image_id cloud_version_config)) ;;
  _ <- update_state "PROGRESSING"
         {| template := "Retrieving or creating a keypair"; slots := [] |} ;;
  kp_name0 <- lift (dict_get cloudlaunch_config "keyPair" VNone) ;;
  kp <- _get_or_create_kp (py_or kp_name0 (VStr "cloudlaunch_key_pair")) ;;
  _ <- update_state "PROGRESSING"
         {| template := "Applying firewall settings"; slots := [] |} ;;
  sg <- apply_app_firewall_settings cloudlaunch_config ;;
  cb_launch_config <- _get_cb_launch_config img cloudlaunch_config ;;
  inst_type <- lift (dict_get cloudlaunch_config "instanceType"
                       (cvc_default_instance_type cloud_version_config)) ;;
  placement_zone <- lift (dict_get cloudlaunch_config "placementZone" VNone) ;;
  subnet_id <- lift (dict_get cloudlaunch_config "subnet" VNone) ;;
  _ <- print {| template := "Launching with subnet %s and sg %s";
                slots := [PVal subnet_id; PSg sg] |} ;;
  _ <- print {| template := "Launching with ud:\n%s";
                slots := [PVal user_data] |} ;;
  _ <- update_state "PROGRESSING"
         {| template := "Launching an instance of type %s with keypair %s in zone %s";
            slots := [PVal inst_type; PStr (kp_name kp); PVal placement_zone] |} ;;
  inst <- instances_create
            {| req_name := name; req_image := img;
               req_instance_type := inst_type; req_subnet := subnet_id;
               req_key_pair := kp; req_security_groups := [sg];
               req_zone := placement_zone; req_user_data := user_data;
               req_launch_config := cb_launch_config |} ;;
  _ <- update_state "PROGRESSING"
         {| template := "Waiting for instance %s";
            slots := [PStr (inst_id inst)] |} ;;
  inst <- wait_till_ready inst ;;
  static_ip <- lift (dict_get cloudlaunch_config "staticIP" VNone) ;;
  inst <- (if truthy static_ip
           then
             _ <- update_state "PROGRESSING"
                    {| template := "Assigning requested floating IP: %s";
                       slots := [PVal static_ip] |} ;;
             inst <- add_floating_ip inst static_ip ;;
             refresh inst
           else ret inst) ;;
  let results_keyPair := (kp_id kp, kp_name kp, kp_material kp) in
  results_securityGroup <- lift (id_and_name sg) ;;
  let results_instance := inst_id inst in
  results_publicIP <- attach_public_ip inst ;;
  _ <- update_state "PROGRESSING"
         {| template := "Instance creation successful. Public IP (if available): %s";
            slots := [shown_address results_publicIP] |} ;;
  results_applicationURL <-
    (if base_app
     then
       if has_address results_publicIP
       then
         let url := match results_publicIP with
                    | Some a => "http://" ++ a ++ "/"
                    | None => "http://None/"
                    end in
         _ <- update_state "PROGRESSING"
                {| template := "Waiting for application to become ready at %s";
                   slots := [PStr url] |} ;;
         _ <- wait_for_http url default_max_retries default_poll_interval ;;
         ret (Some url)
       else ret (Some "N/A")
     else ret None) ;;
  ret {| keyPair := results_keyPair;
         securityGroup := results_securityGroup;
         instance := results_instance;
         publicIP := results_publicIP;
         applicationURL := results_applicationURL |}.

End Plugin.

(* ===================================================================== *)
(** ** A reference provider                                               *)
(* ===================================================================== *)

(** An in-memory cloud account, enough to run the plugin on concrete
    inputs: named key pairs and security groups, the rules stored so far,
    the account's floating IPs, and the addresses it may still allocate. *)
Module Sim.

Record Cloud : Type := {
  key_pairs : list KeyPair;
  groups : list SecurityGroup;
  rules : list (string * rule_request);
  network : option Network;
  addresses : list FloatingIP;
  pool : list string;
  boot_ips : list (option string)
}.

Definition named {A : Type} (name_of : A -> string) (name : value) (xs : list A)
  : list A :=
  filter (fun x => eq_str name (name_of x)) xs.

Definition set_key_pairs (c : Cloud) (kps : list KeyPair) : Cloud :=
  {| key_pairs := kps; groups := groups c; rules := rules c;
     network := network c; addresses := addresses c; pool := pool c;
     boot_ips := boot_ips c |}.

Definition set_groups (c : Cloud) (sgs : list SecurityGroup) : Cloud :=
  {| key_pairs := key_pairs c; groups := sgs; rules := rules c;
     network := network c; addresses := addresses c; pool := pool c;
     boot_ips := boot_ips c |}.

Definition set_rules (c : Cloud) (rs : list (string * rule_request)) : Cloud :=
  {| key_pairs := key_pairs c; groups := groups c; rules := rs;
     network := network c; addresses := addresses c; pool := pool c;
     boot_ips := boot_ips c |}.

Definition set_network (c : Cloud) (n : option Network) : Cloud :=
  {| key_pairs := key_pairs c; groups := groups c; rules := rules c;
     network := n; addresses := addresses c; pool := pool c;
     boot_ips := boot_ips c |}.

Definition set_addresses (c : Cloud) (fips : list FloatingIP)
    (free : list string) : Cloud :=
  {| key_pairs := key_pairs c; groups := groups c; rules := rules c;
     network := network c; addresses := fips; pool := free;
     boot_ips := boot_ips c |}.

Definition claim_address (a : string) (fip : FloatingIP) : FloatingIP :=
  match public_ip fip with
  | Some b =>
      if String.eqb b a then {| public_ip := Some a; in_use := true |} else fip
  | None => fip
  end.

(** A rule with no protocol is refused, as is a second root device, a
    negative volume size, or an allocation from an empty pool. *)
Definition respond (c : call) : Cloud -> outcome (answer c) * Cloud :=
  match c as c0 return Cloud -> outcome (answer c0) * Cloud with
  | GetCloudProvider _ _ => fun s => (Ok tt, s)
  | ImagesGet id => fun s =>
      (Ok (match id with
           | VStr i => Some {| image_id := i |}
           | _ => None
           end), s)
  | KeyPairsFind name => fun s => (Ok (named kp_name name (key_pairs s)), s)
  | KeyPairsCreate name => fun s =>
      match name with
      | VStr n =>
          let kp := {| kp_id := n; kp_name := n;
                       kp_material := Some "PRIVATE KEY" |} in
          (Ok kp, set_key_pairs s (key_pairs s ++ [kp]))
      | _ => (Raise (CloudError "key pair name must be a string"), s)
      end
  | SecurityGroupsFind name => fun s => (Ok (named sg_name name (groups s)), s)
  | SecurityGroupsCreate name _ _ => fun s =>
      match name with
      | VStr n =>
          let g := {| sg_id := "sg-" ++ n; sg_name := n |} in
          (Ok g, set_groups s (groups s ++ [g]))
      | _ => (Raise (CloudError "group name must be a string"), s)
      end
  | AddRule g r => fun s =>
      match r with
      | Explicit VNone _ _ _ => (Raise (CloudError "rule without protocol"), s)
      | _ => (Ok tt, set_rules s (rules s ++ [(sg_id g, r)]))
      end
  | GetOrCreateDefault => fun s =>
      match network s with
      | Some n => (Ok (Some n), s)
      | None =>
          let n := {| net_id := "net-default" |} in
          (Ok (Some n), set_network s (Some n))
      end
  | FloatingIps => fun s => (Ok (addresses s), s)
  | CreateFloatingIp => fun s =>
      match pool s with
      | a :: free =>
          let fip := {| public_ip := Some a; in_use := false |} in
          (Ok fip, set_addresses s (addresses s ++ [fip]) free)
      | [] => (Raise (CloudError "no address left to allocate"), s)
      end
  | CreateLaunchConfig => fun s => (Ok {| block_devices := [] |}, s)
  | AddVolumeDevice lc src gb root => fun s =>
      if (root && existsb is_root (block_devices lc)) || (gb <? 0)
      then (Raise (CloudError "invalid volume device"), s)
      else (Ok {| block_devices :=
                    block_devices lc ++
                    [{| is_volume := true; source := src; is_root := root;
                        size := gb |}] |}, s)
  | InstancesCreate _ => fun s =>
      (Ok {| inst_id := "i-0001"; public_ips := [] |}, s)
  | WaitTillReady inst => fun s =>
      (Ok {| inst_id := inst_id inst; public_ips := boot_ips s |}, s)
  | AddFloatingIp inst ip => fun s =>
      match ip with
      | VStr a =>
          (Ok {| inst_id := inst_id inst;
                 public_ips := public_ips inst ++ [Some a] |},
           set_addresses s (map (claim_address a) (addresses s)) (pool s))
      | _ => (Raise (CloudError "address must be a string"), s)
      end
  | Refresh inst => fun s => (Ok inst, s)
  end.

Definition same_group (a b : SecurityGroup) : bool :=
  String.eqb (sg_id a) (sg_id b).

Definition digit (c : Ascii.ascii) : option Z :=
  let n := Z.of_nat (Ascii.nat_of_ascii c) in
  if (48 <=? n) && (n <=? 57) then Some (n - 48) else None.

Fixpoint digits (acc : Z) (s : string) : option Z :=
  match s with
  | EmptyString => Some acc
  | String c rest =>
      match digit c with
      | Some d => digits (10 * acc + d) rest
      | None => None
      end
  end.

(** Plain decimal literals only. *)
Definition decimal (s : string) : option Z :=
  match s with
  | EmptyString => None
  | _ => digits 0 s
  end.

End Sim.

#[export] Instance sim_provider : CloudProvider Sim.Cloud :=
  {| respond := Sim.respond; sg_eqb := Sim.same_group |}.

#[export] Instance sim_builtins : Builtins := {| int_of_str := Sim.decimal |}.

Arguments World P : clear implicits.

(** *** Concrete inputs *)

Definition empty_cloud : Sim.Cloud :=
  {| Sim.key_pairs := []; Sim.groups := []; Sim.rules := [];
     Sim.network := None; Sim.addresses := []; Sim.pool := [];
     Sim.boot_ips := [] |}.

Definition refused : nat -> string -> outcome Response :=
  fun _ _ => Raise (ConnectionError "connection refused").

Definition answering (code : Z) : nat -> string -> outcome Response :=
  fun _ _ => Ok {| status_code := code |}.

(** A run starts with nothing sent and nothing logged. *)
Definition start (c : Sim.Cloud) (script : nat -> string -> outcome Response)
  : World Sim.Cloud :=
  {| cloud := c; net := script; heads_done := 0%nat; trace := [] |}.

Definition ssh_rule : value :=
  VDict [("protocol", VStr "tcp"); ("from", VStr "22"); ("to", VStr "22");
         ("cidr", VStr "0.0.0.0/0")].

Definition group_of (name : string) (rules : list value) : value :=
  VDict [("securityGroup", VStr name); ("rules", VList rules)].

Definition two_groups : value :=
  VDict [("firewall", VList [group_of "App" [ssh_rule];
                             group_of "Db" [ssh_rule]])].

Definition cvc0 : CloudVersionConfig :=
  {| cvc_cloud := "aws"; cvc_image_id := VStr "ami-1";
     cvc_default_instance_type := VStr "m1.small" |}.

Definition cloud_with_ip : Sim.Cloud :=
  {| Sim.key_pairs := []; Sim.groups := []; Sim.rules := [];
     Sim.network := None;
     Sim.addresses := [{| public_ip := Some "1.2.3.4"; in_use := false |}];
     Sim.pool := []; Sim.boot_ips := [] |}.

Definition bare_instance : Instance :=
  {| inst_id := "i-0001"; public_ips := [] |}.

Definition addressed_instance : Instance :=
  {| inst_id := "i-0002"; public_ips := [Some "9.9.9.9"; Some "8.8.8.8"] |}.

(** Two free addresses around one that is taken. *)
Definition cloud_with_three_ips : Sim.Cloud :=
  {| Sim.key_pairs := []; Sim.groups := []; Sim.rules := [];
     Sim.network := None;
     Sim.addresses := [{| public_ip := Some "1.1.1.1"; in_use := false |};
                       {| public_ip := Some "2.2.2.2"; in_use := false |};
                       {| public_ip := Some "3.3.3.3"; in_use := true |}];
     Sim.pool := []; Sim.boot_ips := [] |}.

Definition cloud_with_pool : Sim.Cloud :=
  {| Sim.key_pairs := []; Sim.groups := []; Sim.rules := [];
     Sim.network := None;
     Sim.addresses := [{| public_ip := Some "3.3.3.3"; in_use := true |}];
     Sim.pool := ["5.6.7.8"]; Sim.boot_ips := [] |}.


(** A rule the reference provider refuses (it names no protocol) between two
    it accepts, and one entry that is not a rule at all. *)
Definition bad_rule : value := VDict [("from", VStr "80"); ("to", VStr "80")].

Definition self_rule : value :=
  VDict [("src_group", VStr "App"); ("from", VStr "1"); ("to", VStr "65535");
         ("protocol", VStr "tcp")].

Definition mixed_rules : list value :=
  [ssh_rule; bad_rule; VStr "x"; self_rule].

Definition mixed_config : value :=
  VDict [("firewall", VList [group_of "App" mixed_rules])].

Definition app_group : SecurityGroup := {| sg_id := "sg-App"; sg_name := "App" |}.

Definition cloud_with_app_group : Sim.Cloud :=
  {| Sim.key_pairs := []; Sim.groups := [app_group]; Sim.rules := [];
     Sim.network := None; Sim.addresses := []; Sim.pool := [];
     Sim.boot_ips := [] |}.

(** A server that refuses the first [n] connections and then answers
    [code]. *)
Definition up_after (n : nat) (code : Z) : nat -> string -> outcome Response :=
  fun k _ =>
    if (k <? n)%nat
    then Raise (ConnectionError "connection refused")
    else Ok {| status_code := code |}.

Definition no_firewall_app_config : value :=
  VDict [("config_cloudlaunch", VDict [("firewall", VList [])])].

(* ===================================================================== *)
(** ** The rest of the plugin, and more vocabulary                        *)
(* ===================================================================== *)

(** [process_app_config]: a static method that reads nothing but
    [app_config]. *)
Definition process_app_config (name : string)
    (cloud_version_config : CloudVersionConfig)
    (credentials app_config : value) : outcome value :=
  match dict_get app_config "config_cloudlaunch" (VDict []) with
  | Ok config_cloudlaunch =>
      dict_get config_cloudlaunch "instance_user_data" (VDict [])
  | Raise e => Raise e
  end.

(** A value that [m] ends on satisfies [R]. *)
Definition returns {P A : Type} (R : A -> Prop)
    (m : World P -> outcome A * World P) : Prop :=
  forall (w : World P) (a : A) (w' : World P), m w = (Ok a, w') -> R a.

(** The event is no progress report, or one in state ["PROGRESSING"]. *)
Definition progressing (e : event) : Prop :=
  forall (state : string) (action : message),
    e = StateUpdated state action -> state = "PROGRESSING".

(** The event is not an HTTP request. *)
Definition no_probe (e : event) : Prop := forall url : string, e <> Head url.

(** An answer that [raise_for_status] lets through. *)
Definition no_error_status (o : outcome Response) : Prop :=
  exists r : Response,
    o = Ok r /\ (status_code r < 400 \/ 600 <= status_code r).

(** A failure of the request that neither [except] clause of
    [wait_for_http] names. *)
Definition unexpected_failure (e : exn) : Prop :=
  (forall code : Z, e <> HTTPError code) /\
  (forall msg : string, e <> ConnectionError msg).

Definition retried (o : outcome Response) : Prop :=
  connection_failure o \/ other_http_error o.

(** What [launch_app] reports as the application's URL for the address it
    got. *)
Definition url_for (base_app : bool) (ip : option string) : option string :=
  if base_app
  then
    Some (match ip with
          | Some a => if String.eqb a "" then "N/A" else "http://" ++ a ++ "/"
          | None => "N/A"
          end)
  else None.

(** A server that refuses [n] connections and then times out on reading. *)
Definition times_out_after (n : nat) : nat -> string -> outcome Response :=
  fun k _ =>
    if (k <? n)%nat
    then Raise (ConnectionError "connection refused")
    else Raise (RequestException "read timed out").

Definition cloud_with_key_pair : Sim.Cloud :=
  {| Sim.key_pairs := [{| kp_id := "kp-1"; kp_name := "mine";
                          kp_material := None |}];
     Sim.groups := []; Sim.rules := []; Sim.network := None;
     Sim.addresses := []; Sim.pool := []; Sim.boot_ips := [] |}.

Definition app_config_one_group : value :=
  VDict [("config_cloudlaunch",
          VDict [("firewall", VList [group_of "App" [ssh_rule]])])].

(** An instance whose only listed address is [None], and an account whose
    instances come up with such a list. *)
Definition unaddressed_instance : Instance :=
  {| inst_id := "i-0003"; public_ips := [None] |}.

Definition cloud_booting_without_address : Sim.Cloud :=
  {| Sim.key_pairs := []; Sim.groups := []; Sim.rules := [];
     Sim.network := None; Sim.addresses := []; Sim.pool := [];
     Sim.boot_ips := [None] |}.
(* ===================================================================== *)
(** ** Properties                                                         *)
(* ===================================================================== *)

Section Properties.

Context {P : Type} `{CloudProvider P} `{Builtins}.

Implicit Types (w : World P) (inst : Instance).

(** *** Floating IP allocation *)

Lemma moved_nothing w : moved w (cloud w) [] = w.
Proof. destruct w; unfold moved; simpl. now rewrite app_nil_r. Qed.

Lemma scan_all_in_use (fips : list FloatingIP) (acc : option FloatingIP) :
  (forall ip, In ip fips -> in_use ip = true) ->
  scan_floating_ips fips acc = acc.
Proof.
  unfold scan_floating_ips. revert acc.
  induction fips as [|ip fips IH]; intros acc Hall; simpl; [reflexivity|].
  rewrite (Hall ip (or_introl eq_refl)). simpl.
  apply IH. intros ip' Hin. apply Hall. now right.
Qed.

Lemma scan_last_free (before after : list FloatingIP) (fip : FloatingIP)
    (acc : option FloatingIP) :
  in_use fip = false ->
  (forall ip, In ip after -> in_use ip = true) ->
  scan_floating_ips (before ++ fip :: after)%list acc = Some fip.
Proof.
  intros Hfree Hafter. unfold scan_floating_ips.
  rewrite fold_left_app. simpl. rewrite Hfree. simpl.
  now apply scan_all_in_use.
Qed.

(** A listing with a free address splits at its last free address. *)
Lemma last_free_address_exists (fips : list FloatingIP) :
  (exists ip, In ip fips /\ in_use ip = false) ->
  exists (before after : list FloatingIP) (fip : FloatingIP),
    fips = (before ++ fip :: after)%list /\
    in_use fip = false /\
    forall ip, In ip after -> in_use ip = true.
Proof.
  induction fips as [|x fips IH] using rev_ind; intros (ip & Hin & Hfree).
  - destruct Hin.
  - destruct (in_use x) eqn:Hx.
    + apply in_app_or in Hin as [Hin | [<- | []]]; [|congruence].
      destruct IH as (before & after & fip & -> & Hf & Hafter); [eauto|].
      exists before, (after ++ [x])%list, fip.
      rewrite <- app_assoc. repeat split; [exact Hf|].
      intros ip' Hin'. apply in_app_or in Hin' as [Hin' | [<- | []]]; auto.
    + exists fips, [], x. repeat split; [exact Hx|]. intros ip' [].
Qed.

(** Every world is [moved] from itself by nothing; the steps below keep
    worlds in that shape. *)
Lemma invoke_moved (c : call) w (p : P) (evs : list event) :
  invoke c (moved w p evs)
  = (fst (respond c p),
     moved w (snd (respond c p))
       (evs ++ [Called c (raised_by (fst (respond c p)))])).
Proof.
  unfold invoke, moved; simpl. destruct (respond c p) as [o p1]; simpl.
  now rewrite app_assoc.
Qed.

Lemma invoke_ok (c : call) w (p : P) (evs : list event) (a : answer c) (p1 : P) :
  respond c p = (Ok a, p1) ->
  invoke c (moved w p evs) = (Ok a, moved w p1 (evs ++ [Called c None])).
Proof. intros E. rewrite invoke_moved, E. reflexivity. Qed.

Lemma invoke_raise (c : call) w (p : P) (evs : list event) (e : exn) (p1 : P) :
  respond c p = (Raise e, p1) ->
  invoke c (moved w p evs)
  = (Raise e, moved w p1 (evs ++ [Called c (Some e)])).
Proof. intros E. rewrite invoke_moved, E. reflexivity. Qed.

Lemma print_moved (line : message) w (p : P) (evs : list event) :
  print line (moved w p evs) = (Ok tt, moved w p (evs ++ [Printed line])).
Proof. unfold print, log, moved; simpl. now rewrite app_assoc. Qed.

Lemma update_state_moved (state : string) (action : message) w (p : P)
    (evs : list event) :
  update_state state action (moved w p evs)
  = (Ok tt, moved w p (evs ++ [StateUpdated state action])).
Proof. unfold update_state, log, moved; simpl. now rewrite app_assoc. Qed.

(** C6. An instance that already has public IPs keeps them:
    [attach_public_ip] returns the first address of the instance's list,
    and the world is left exactly as it was: no scan of the floating IPs,
    no attachment, no allocation, nothing logged. *)
Theorem attach_public_ip_existing_address_no_provider_call :
  forall inst (ip : option string) (others : list (option string)) w,
    public_ips inst = ip :: others ->
    attach_public_ip inst w = (Ok ip, w).
Proof.
  intros inst ip others w E. unfold attach_public_ip. rewrite E. reflexivity.
Qed.

(** C5. An instance without a public IP.  When the account's floating IPs
    hold one that is not in use, the one attached and returned is the last
    such entry of the listing (every entry after it is in use), and no
    address is allocated; when all of them are in use, exactly one new
    address is requested, attached and returned. *)
Theorem attach_public_ip_last_free_address_else_one_new :
  forall inst w (fips : list FloatingIP) (p1 : P),
    public_ips inst = [] ->
    respond FloatingIps (cloud w) = (Ok fips, p1) ->
    (forall (before after : list FloatingIP) (fip : FloatingIP)
            (inst' : Instance) (p2 : P),
        fips = (before ++ fip :: after)%list ->
        in_use fip = false ->
        (forall ip, In ip after -> in_use ip = true) ->
        respond (AddFloatingIp inst (address_value (public_ip fip))) p1
          = (Ok inst', p2) ->
        attach_public_ip inst w
        = (Ok (public_ip fip),
           moved w p2
             [Called FloatingIps None;
              Printed {| template := "Attaching an existing floating IP %s";
                         slots := [shown_address (public_ip fip)] |};
              Called (AddFloatingIp inst (address_value (public_ip fip))) None]))
    /\
    (forall (fip : FloatingIP) (inst' : Instance) (p2 p3 : P),
        (forall ip, In ip fips -> in_use ip = true) ->
        respond CreateFloatingIp p1 = (Ok fip, p2) ->
        respond (AddFloatingIp inst (address_value (public_ip fip))) p2
          = (Ok inst', p3) ->
        attach_public_ip inst w
        = (Ok (public_ip fip),
           moved w p3
             [Called FloatingIps None;
              Called CreateFloatingIp None;
              Called (AddFloatingIp inst (address_value (public_ip fip))) None])).
Proof.
  intros inst w fips p1 Hnone Hscan.
  split.
  - intros before after fip inst' p2 Hsplit Hfree Hafter Hadd.
    rewrite <- (moved_nothing w) at 1.
    unfold attach_public_ip. rewrite Hnone. simpl.
    unfold bind at 1. unfold floating_ips.
    rewrite (invoke_ok FloatingIps w _ _ fips p1 Hscan).
    rewrite Hsplit, (scan_last_free before after fip None Hfree Hafter).
    unfold bind, add_floating_ip, ret.
    rewrite print_moved.
    rewrite (invoke_ok (AddFloatingIp inst (address_value (public_ip fip)))
               w _ _ inst' p2 Hadd).
    reflexivity.
  - intros fip inst' p2 p3 Hall Hnew Hadd.
    rewrite <- (moved_nothing w) at 1.
    unfold attach_public_ip. rewrite Hnone. simpl.
    unfold bind at 1. unfold floating_ips.
    rewrite (invoke_ok FloatingIps w _ _ fips p1 Hscan).
    rewrite (scan_all_in_use fips None Hall).
    unfold bind, create_floating_ip, add_floating_ip, ret.
    rewrite (invoke_ok CreateFloatingIp w _ _ fip p2 Hnew).
    rewrite (invoke_ok (AddFloatingIp inst (address_value (public_ip fip)))
               w _ _ inst' p3 Hadd).
    reflexivity.
Qed.


(** *** Network and launch configuration *)

(** C8 (amended). [_get_network_id] hands back the configuration's
    [network] value as it is, without consulting the provider, whenever
    that value is present and true in Python's sense; when the key is
    absent, or present with a false value (an empty string, [None], zero),
    it asks the provider for its default network and returns the id of the
    network it gets. *)
Theorem get_network_id_verbatim_when_truthy_else_default :
  forall (entries : list (string * value)) w,
    (forall v : value,
        assoc "network" entries = Some v ->
        truthy v = true ->
        _get_network_id (VDict entries) w = (Ok v, w))
    /\
    (forall (n : Network) (p1 : P),
        (assoc "network" entries = None \/
         exists v, assoc "network" entries = Some v /\ truthy v = false) ->
        respond GetOrCreateDefault (cloud w) = (Ok (Some n), p1) ->
        _get_network_id (VDict entries) w
        = (Ok (VStr (net_id n)), moved w p1 [Called GetOrCreateDefault None])).
Proof.
  intros entries w. split.
  - intros v Hv Ht. unfold _get_network_id, bind, lift, dict_get.
    rewrite Hv, Ht. reflexivity.
  - intros n p1 Hcase Hnet.
    rewrite <- (moved_nothing w) at 1.
    unfold _get_network_id, bind, lift, dict_get, get_or_create_default.
    assert (Hfalse : truthy (match assoc "network" entries with
                             | Some v => v
                             | None => VNone
                             end) = false).
    { destruct Hcase as [-> | [v [-> Hv]]]; [reflexivity | exact Hv]. }
    rewrite Hfalse. simpl.
    rewrite (invoke_ok GetOrCreateDefault w _ _ (Some n) p1 Hnet).
    reflexivity.
Qed.

(** C7. With [rootStorageType] absent or ["instance"],
    [_get_cb_launch_config] returns [None] and asks nothing of the
    provider.  With ["volume"] it creates a launch config and adds to it
    exactly one device: a root volume whose source is the image and whose
    size is [rootStorageSize] read as an integer, 20 when the key is absent;
    the config it returns is the outcome of that single addition. *)
Theorem get_cb_launch_config_root_volume_only_when_asked :
  forall (image : option Image) (entries : list (string * value)) w,
    (assoc "rootStorageType" entries = None \/
     assoc "rootStorageType" entries = Some (VStr "instance") ->
     _get_cb_launch_config image (VDict entries) w = (Ok None, w))
    /\
    (forall (gb : Z) (lc0 lc1 : LaunchConfig) (p1 p2 : P),
        assoc "rootStorageType" entries = Some (VStr "volume") ->
        (assoc "rootStorageSize" entries = None /\ gb = 20) \/
        (exists v, assoc "rootStorageSize" entries = Some v /\
                   py_int v = Ok gb) ->
        respond CreateLaunchConfig (cloud w) = (Ok lc0, p1) ->
        respond (AddVolumeDevice lc0 image gb true) p1 = (Ok lc1, p2) ->
        _get_cb_launch_config image (VDict entries) w
        = (Ok (Some lc1),
           moved w p2
             [Called CreateLaunchConfig None;
              Called (AddVolumeDevice lc0 image gb true) None])).
Proof.
  intros image entries w. split.
  - intros Hcase. unfold _get_cb_launch_config, bind, lift, dict_get.
    destruct Hcase as [-> | ->]; reflexivity.
  - intros gb lc0 lc1 p1 p2 Hvol Hsize Hnew Hadd.
    rewrite <- (moved_nothing w) at 1.
    unfold _get_cb_launch_config, bind, lift, dict_get,
      create_launch_config, add_volume_device, ret.
    rewrite Hvol. simpl.
    rewrite (invoke_ok CreateLaunchConfig w _ _ lc0 p1 Hnew).
    assert (Hgb : py_int (match assoc "rootStorageSize" entries with
                          | Some v => v
                          | None => VInt 20
                          end) = Ok gb).
    { destruct Hsize as [[-> ->] | [v [-> Hv]]]; [reflexivity | exact Hv]. }
    rewrite Hgb.
    rewrite (invoke_ok (AddVolumeDevice lc0 image gb true) w _ _ lc1 p2 Hadd).
    reflexivity.
Qed.

(** *** Firewall settings *)

Lemma add_rule_to_dict (sg : SecurityGroup) (rule : list (string * value)) w :
  add_rule_to sg (VDict rule) w = add_rule sg (request_of sg rule) w.
Proof.
  unfold add_rule_to, request_of, bind, lift, dict_get.
  destruct (truthy _); reflexivity.
Qed.

Lemma invoke_trace (c : call) w :
  trace (snd (invoke c w))
  = (trace w ++ [Called c (raised_by (fst (invoke c w)))])%list.
Proof. unfold invoke. destruct (respond c (cloud w)); reflexivity. Qed.

(** One rule: the turn always ends normally, whatever the provider did. *)
Lemma apply_rule_block (sg : SecurityGroup) (rule : value) w :
  exists w' (block : list event),
    apply_rule sg rule w = (Ok Next, w') /\
    trace w' = (trace w ++ block)%list /\
    rule_block sg rule block.
Proof.
  unfold apply_rule, bind, try_except, ret.
  destruct rule as [| b | z | s | items | entries];
    try solve [ eexists; eexists; split; [reflexivity|];
                split; [reflexivity|]; now apply rule_malformed ].
  rewrite add_rule_to_dict. unfold add_rule.
  pose proof (invoke_trace (AddRule sg (request_of sg entries)) w) as Htr.
  destruct (invoke (AddRule sg (request_of sg entries)) w) as [[[]|e] w1];
    simpl in Htr.
  - exists w1, [Called (AddRule sg (request_of sg entries)) None].
    repeat split; [exact Htr | constructor].
  - eexists; eexists. split; [reflexivity|]. split.
    + unfold log; simpl. rewrite Htr, <- app_assoc. reflexivity.
    + constructor.
Qed.

(** The loop over the rules of a group runs to its end on every list of
    rules and in every world. *)
Lemma apply_rules_blocks (sg : SecurityGroup) (rules : list value) w :
  exists w' (blocks : list (list event)),
    for_each rules (apply_rule sg) w = (Ok None, w') /\
    trace w' = (trace w ++ List.concat blocks)%list /\
    Forall2 (rule_block sg) rules blocks.
Proof.
  revert w. induction rules as [|rule rules IH]; intros w.
  - exists w, []. simpl. rewrite app_nil_r. repeat split. constructor.
  - destruct (apply_rule_block sg rule w) as (w1 & block & Erun & Etr & Hb).
    destruct (IH w1) as (w2 & blocks & Erun' & Etr' & Hbs).
    exists w2, (block :: blocks). simpl. unfold bind at 1.
    rewrite Erun, Erun'. repeat split.
    + rewrite Etr', Etr, <- app_assoc. reflexivity.
    + now constructor.
Qed.

(** C4. A failure while adding a rule never leaves
    [apply_app_firewall_settings].  Once the group of the first firewall
    entry is found or created, the call returns that very group, for every
    behaviour of the provider on [add_rule]; and what the rules leave in the
    trace is one block per rule, in order: the request, followed by the
    printed exception when the request failed, so that the rules after a
    failing one are still attempted. *)
Theorem apply_app_firewall_settings_swallows_rule_failures :
  forall (entries group : list (string * value)) (others rules : list value)
         (sg : SecurityGroup) w w1,
    assoc "firewall" entries = Some (VList (VDict group :: others)) ->
    py_iter (match assoc "rules" group with Some v => v | None => VList [] end)
      = Ok rules ->
    _get_or_create_sg (VDict entries)
      (py_or (match assoc "securityGroup" group with Some v => v | None => VNone end)
         (VStr "CloudLaunchDefault"))
      (py_or (match assoc "description" group with Some v => v | None => VNone end)
         (VStr "Created by CloudLaunch")) w
      = (Ok sg, w1) ->
    exists w2 (blocks : list (list event)),
      apply_app_firewall_settings (VDict entries) w = (Ok (Some sg), w2) /\
      trace w2 = (trace w1 ++ List.concat blocks)%list /\
      Forall2 (rule_block sg) rules blocks.
Proof.
  intros entries group others rules sg w w1 Hfw Hrules Hsg.
  destruct (apply_rules_blocks sg rules w1) as (w2 & blocks & Erun & Etr & Hbs).
  exists w2, blocks. split; [|split; assumption].
  unfold apply_app_firewall_settings, apply_group, bind, lift, dict_get, ret.
  rewrite Hfw. cbn [py_iter for_each]. unfold bind, ret.
  rewrite Hsg, Hrules, Erun. reflexivity.
Qed.

(** The firewall entry of the configuration plays no part in how a group
    is applied: only its [network] key is ever read there. *)
Lemma apply_group_ignores_firewall_key (entries : list (string * value))
    (fw group : value) :
  apply_group (VDict (("firewall", fw) :: entries)) group
  = apply_group (VDict entries) group.
Proof. reflexivity. Qed.

(** C1 (amended). With two or more entries in the firewall list,
    [apply_app_firewall_settings] applies the first entry and returns its
    security group, and that is all it does: the run is, outcome and world
    alike, the run on the same configuration with the list cut down to its
    first entry, so that for the entries after the first no group is looked
    up or created and no rule is added. *)
Theorem apply_app_firewall_settings_first_group_only :
  forall (entries : list (string * value)) (group : value)
         (others : list value) w,
    assoc "firewall" entries = Some (VList (group :: others)) ->
    apply_app_firewall_settings (VDict entries) w
    = bind (apply_group (VDict entries) group) (fun sg => ret (Some sg)) w
    /\
    apply_app_firewall_settings (VDict entries) w
    = apply_app_firewall_settings
        (VDict (("firewall", VList [group]) :: entries)) w.
Proof.
  intros entries group others w Hfw.
  assert (Hcut : forall cfg rest,
             for_each (group :: rest)
               (fun g => bind (apply_group cfg g) (fun sg => ret (Return sg))) w
             = bind (apply_group cfg group) (fun sg => ret (Some sg)) w).
  { intros cfg rest. cbn [for_each]. unfold bind, ret.
    destruct (apply_group cfg group w) as [[sg|e] w1]; reflexivity. }
  assert (Hrun : apply_app_firewall_settings (VDict entries) w
                 = bind (apply_group (VDict entries) group)
                     (fun sg => ret (Some sg)) w).
  { unfold apply_app_firewall_settings, bind at 1 2, lift, dict_get.
    rewrite Hfw. cbn [py_iter]. apply Hcut. }
  split; [exact Hrun|].
  rewrite Hrun.
  unfold apply_app_firewall_settings, bind at 2 3, lift, dict_get.
  cbn [assoc String.eqb Ascii.eqb Bool.eqb py_iter].
  rewrite Hcut, apply_group_ignores_firewall_key. reflexivity.
Qed.

(** *** What a computation may add to the trace *)

Section Emits.

Variable Q : event -> Prop.

Lemma emits_lift {A : Type} (o : outcome A) (R : A -> Prop) :
  (forall a, o = Ok a -> R a) -> emits (P:=P) Q R (lift o).
Proof.
  intros HR w. exists []. simpl. rewrite app_nil_r. repeat split; auto.
Qed.

Lemma emits_ret {A : Type} (a : A) : emits (P:=P) Q anything (ret a).
Proof.
  intros w. exists []. simpl. rewrite app_nil_r. repeat split; auto.
Qed.

Lemma emits_invoke (c : call) :
  (forall raised, Q (Called c raised)) -> emits (P:=P) Q anything (invoke c).
Proof.
  intros HQ w. exists [Called c (raised_by (fst (invoke c w)))].
  split; [apply invoke_trace|]. split; [|exact (fun _ _ => I)].
  constructor; [apply HQ | constructor].
Qed.

Lemma emits_print (line : message) :
  Q (Printed line) -> emits (P:=P) Q anything (print line).
Proof.
  intros HQ w. exists [Printed line]. repeat split. now constructor.
Qed.

Lemma emits_update_state (state : string) (action : message) :
  Q (StateUpdated state action) -> emits (P:=P) Q anything (update_state state action).
Proof.
  intros HQ w. exists [StateUpdated state action]. repeat split.
  now constructor.
Qed.

Lemma emits_bind {A B : Type} (R : A -> Prop) (R' : B -> Prop) (m : M A)
    (k : A -> M B) :
  emits (P:=P) Q R m -> (forall a, R a -> emits (P:=P) Q R' (k a)) -> emits (P:=P) Q R' (bind m k).
Proof.
  intros Hm Hk w. destruct (Hm w) as (evs & Etr & HQ & HR).
  unfold bind. destruct (m w) as [[a|e] w1]; simpl in *.
  - destruct (Hk a (HR a eq_refl) w1) as (evs' & Etr' & HQ' & HR').
    exists (evs ++ evs')%list. rewrite Etr', Etr, app_assoc.
    split; [reflexivity|]. split; [|exact HR'].
    apply Forall_app. now split.
  - exists evs. repeat split; [exact Etr | exact HQ | discriminate].
Qed.

Lemma emits_unchanged {A : Type} (m : M A) (a : A) :
  (forall w, m w = (Ok a, w)) -> emits (P:=P) Q (fun r => r = a) m.
Proof.
  intros Hm w. exists []. rewrite Hm. simpl. rewrite app_nil_r.
  repeat split; [constructor | congruence].
Qed.

End Emits.

Ltac not_a_creation :=
  let E := fresh in
  unfold creates_with; intros ? ? E;
  first [ discriminate E | injection E as <-; reflexivity ].

Ltac emit :=
  repeat first
    [ apply emits_ret
    | match goal with
      | |- emits ?q _ (invoke ?c) =>
          apply (emits_invoke q c); intros ?; not_a_creation
      end
    | apply emits_print; not_a_creation
    | apply emits_update_state; not_a_creation
    | apply emits_lift; exact (fun _ _ => I)
    | eapply emits_bind with (R := anything); [|intros ? _]
    | match goal with
      | |- emits _ _ (if ?b then _ else _) => destruct b
      | |- emits _ _ (match ?x with _ => _ end) => destruct x
      end ].

Lemma apply_app_firewall_settings_empty (entries : list (string * value)) w :
  assoc "firewall" entries = None \/
  assoc "firewall" entries = Some (VList []) ->
  apply_app_firewall_settings (VDict entries) w = (Ok None, w).
Proof.
  intros Hcase. unfold apply_app_firewall_settings, bind, lift, dict_get.
  destruct Hcase as [-> | ->]; reflexivity.
Qed.

(** The run of [launch_app] on a configuration without firewall groups.
    [apply_app_firewall_settings] returns [None] and leaves the world as it
    was: no security group is looked up or created.  [launch_app] goes on
    with that [None]: every instance creation it requests asks for the
    one-element list of security groups [[None]].  It never gets to a
    result, whatever the provider does. *)
Theorem empty_firewall_no_group_and_launch_with_none :
  forall entries : list (string * value),
    assoc "firewall" entries = None \/
    assoc "firewall" entries = Some (VList []) ->
    (forall w, apply_app_firewall_settings (VDict entries) w = (Ok None, w))
    /\
    (forall (base_app : bool) (name : string) (cvc : CloudVersionConfig)
            (credentials app_config user_data : value) w,
        dict_get app_config "config_cloudlaunch" (VDict [])
          = Ok (VDict entries) ->
        exists evs : list event,
          trace (snd (launch_app base_app name cvc credentials app_config
                        user_data w))
            = (trace w ++ evs)%list /\
          (forall (req : create_request) (raised : option exn),
              In (Called (InstancesCreate req) raised) evs ->
              req_security_groups req = [None]) /\
          forall res : LaunchResult,
            fst (launch_app base_app name cvc credentials app_config
                   user_data w) <> Ok res).
Proof.
  intros entries Hcase. split.
  - intros w. now apply apply_app_firewall_settings_empty.
  - intros base_app name cvc credentials app_config user_data w Hcfg.
    assert (Hemits : emits (P:=P) (creates_with [None]) (fun _ : LaunchResult => False)
                       (launch_app base_app name cvc credentials app_config
                          user_data)).
    { unfold launch_app. rewrite Hcfg.
      unfold get_cloud_provider, images_get, _get_or_create_kp,
        key_pairs_find, key_pairs_create.
      eapply emits_bind with (R := fun c => c = VDict entries);
        [apply emits_lift; congruence|intros ? ->].
      do 7 (eapply emits_bind with (R := anything); [solve [emit]|intros ? _]).
      eapply emits_bind;
        [apply emits_unchanged; intros w0;
         now apply apply_app_firewall_settings_empty|].
      intros sg ->.
      eapply emits_bind with (R := anything).
      { unfold _get_cb_launch_config, create_launch_config, add_volume_device.
        emit. }
      intros ? _.
      unfold instances_create, wait_till_ready, add_floating_ip, refresh.
      do 11 (eapply emits_bind with (R := anything); [solve [emit]|intros ? _]).
      eapply emits_bind with (R := fun _ => False); [|intros ? []].
      apply emits_lift. discriminate. }
    destruct (Hemits w) as (evs & Etr & HQ & Hres).
    exists evs. split; [exact Etr|]. split.
    + intros req raised Hin.
      rewrite Forall_forall in HQ. exact (HQ _ Hin req raised eq_refl).
    + intros res Eres. exact (Hres res Eres).
Qed.

(** *** Waiting for the application *)

Lemma wait_loop_step (url : string) (max_retries poll_interval count : Z) w :
  wait_loop url max_retries poll_interval count w
  = if count <? max_retries
    then
      match time_sleep poll_interval w with
      | (Raise e, w1) => (Raise e, w1)
      | (Ok _, w1) =>
          match probe url w1 with
          | (Raise e, w2) => (Raise e, w2)
          | (Ok (Return _), w2) => (Ok tt, w2)
          | (Ok Next, w2) =>
              wait_loop url max_retries poll_interval (count + 1) w2
          end
      end
    else (Ok tt, w).
Proof.
  simp wait_loop.
  destruct (Z_lt_dec count max_retries) as [Hlt|Hge]; simpl.
  - rewrite (proj2 (Z.ltb_lt _ _) Hlt).
    destruct (time_sleep poll_interval w) as [[[]|e] w1]; simpl; [|reflexivity].
    destruct (probe url w1) as [[[|[]]|e] w2]; reflexivity.
  - rewrite (proj2 (Z.ltb_nlt _ _) Hge). reflexivity.
Qed.

Lemma probe_verdict (url : string) (poll_interval : Z) w :
  probe url (log (Slept poll_interval) w)
  = (verdict (net w (heads_done w) url), after_cycle url poll_interval w).
Proof.
  unfold probe, try_except, bind, requests_head, raise_for_status, verdict,
    after_cycle, log; simpl.
  rewrite <- app_assoc; simpl.
  destruct (net w (heads_done w) url) as [r|e].
  - unfold raise, ret.
    destruct ((400 <=? status_code r) && (status_code r <? 600));
      [|reflexivity].
    destruct ((status_code r =? 401) || (status_code r =? 403)); reflexivity.
  - destruct e as [| | | | code | | |]; try reflexivity.
    unfold ret. destruct ((code =? 401) || (code =? 403)); reflexivity.
Qed.

(** One turn of the loop, when there is one. *)
Lemma wait_loop_cycle (url : string) (max_retries poll_interval count : Z) w :
  count < max_retries ->
  0 <= poll_interval ->
  wait_loop url max_retries poll_interval count w
  = match verdict (net w (heads_done w) url) with
    | Raise e => (Raise e, after_cycle url poll_interval w)
    | Ok (Return _) => (Ok tt, after_cycle url poll_interval w)
    | Ok Next =>
        wait_loop url max_retries poll_interval (count + 1)
          (after_cycle url poll_interval w)
    end.
Proof.
  intros Hlt Hpoll. rewrite wait_loop_step.
  rewrite (proj2 (Z.ltb_lt _ _) Hlt).
  unfold time_sleep. rewrite (proj2 (Z.ltb_ge _ _) Hpoll).
  rewrite probe_verdict.
  destruct (verdict _) as [[|[]]|e]; reflexivity.
Qed.

Lemma wait_loop_done (url : string) (max_retries poll_interval count : Z) w :
  max_retries <= count ->
  wait_loop url max_retries poll_interval count w = (Ok tt, w).
Proof.
  intros Hge. rewrite wait_loop_step.
  now rewrite (proj2 (Z.ltb_ge _ _) Hge).
Qed.

Lemma ready_verdict (o : outcome Response) :
  ready o -> verdict o = Ok (Return tt).
Proof.
  intros (r & -> & Hr). unfold verdict.
  destruct ((400 <=? status_code r) && (status_code r <? 600)) eqn:Herr;
    [|reflexivity].
  apply andb_true_iff in Herr as [Hlo Hhi].
  apply Z.leb_le in Hlo. apply Z.ltb_lt in Hhi.
  destruct Hr as [Hok | [-> | ->]]; [lia | reflexivity | reflexivity].
Qed.

Lemma connection_failure_verdict (o : outcome Response) :
  connection_failure o -> verdict o = Ok Next.
Proof. intros (msg & ->). reflexivity. Qed.

Lemma other_http_error_verdict (o : outcome Response) :
  other_http_error o -> verdict o = Ok Next.
Proof.
  intros (r & -> & Hrange & H401 & H403). unfold verdict.
  rewrite (proj2 (Z.leb_le _ _) (proj1 Hrange)).
  rewrite (proj2 (Z.ltb_lt _ _) (proj2 Hrange)).
  rewrite (proj2 (Z.eqb_neq _ _) H401), (proj2 (Z.eqb_neq _ _) H403).
  reflexivity.
Qed.

Lemma after_cycles_net (n : nat) (url : string) (poll_interval : Z) w :
  net (after_cycles n url poll_interval w) = net w.
Proof. revert w. induction n; intros w; simpl; [|rewrite IHn]; reflexivity. Qed.

Lemma after_cycles_heads_done (n : nat) (url : string) (poll_interval : Z) w :
  heads_done (after_cycles n url poll_interval w) = (heads_done w + n)%nat.
Proof.
  revert w. induction n; intros w; simpl; [|rewrite IHn; simpl]; lia.
Qed.

(** While every probe is retried, the loop uses up its attempts and ends
    normally. *)
Lemma wait_loop_all_retried (url : string) (max_retries poll_interval : Z)
    (n : nat) :
  0 <= poll_interval ->
  forall (count : Z) w,
    Z.to_nat (max_retries - count) = n ->
    (forall k, verdict (net w k url) = Ok Next) ->
    wait_loop url max_retries poll_interval count w
    = (Ok tt, after_cycles n url poll_interval w).
Proof.
  intros Hpoll. induction n as [|n IH]; intros count w Hn Hall.
  - apply wait_loop_done. lia.
  - rewrite wait_loop_cycle by lia. rewrite Hall. simpl.
    apply IH; [lia | exact Hall].
Qed.

(** Once a probe that was sent got a ready answer, no further probe is
    sent and the loop has ended normally. *)
Lemma wait_loop_stops_when_ready (url : string) (max_retries poll_interval : Z)
    (n : nat) :
  0 <= poll_interval ->
  forall (count : Z) w,
    Z.to_nat (max_retries - count) = n ->
    (heads_done w
     <= heads_done (snd (wait_loop url max_retries poll_interval count w)))%nat
    /\
    forall k : nat,
      (heads_done w <= k
       < heads_done (snd (wait_loop url max_retries poll_interval count w)))%nat ->
      ready (net w k url) ->
      fst (wait_loop url max_retries poll_interval count w) = Ok tt /\
      heads_done (snd (wait_loop url max_retries poll_interval count w)) = S k.
Proof.
  intros Hpoll. induction n as [|n IH]; intros count w Hn.
  - rewrite wait_loop_done by lia. simpl. split; [lia|]. intros k Hk. lia.
  - rewrite wait_loop_cycle by lia.
    destruct (verdict (net w (heads_done w) url)) as [[|[]]|e] eqn:Hv; simpl.
    + destruct (IH (count + 1) (after_cycle url poll_interval w)) as [Hle Hstop];
        [lia|]. simpl in Hle, Hstop.
      split; [lia|]. intros k Hk Hready.
      assert (Hk' : k <> heads_done w).
      { intros ->. rewrite (ready_verdict _ Hready) in Hv. discriminate. }
      apply Hstop; [lia | exact Hready].
    + split; [lia|]. intros k Hk _. split; [reflexivity | f_equal; lia].
    + split; [lia|]. intros k Hk Hready.
      assert (k = heads_done w) as -> by lia.
      rewrite (ready_verdict _ Hready) in Hv. discriminate.
Qed.

(** C3. [wait_for_http] stops at the first turn of its loop whose HEAD
    request is answered with a 2xx, a 401 or a 403: whenever a probe that
    was sent got such an answer, the call returned normally and that probe
    was the last one it sent.  When every probe fails to connect, it goes
    through exactly [max_retries] turns, each a sleep followed by a probe,
    and then returns normally all the same. *)
Theorem wait_for_http_stops_when_ready_else_max_retries_cycles :
  forall (url : string) (max_retries poll_interval : Z) w,
    0 <= poll_interval ->
    (forall k : nat,
        (heads_done w <= k
         < heads_done (snd (wait_for_http url max_retries poll_interval w)))%nat ->
        ready (net w k url) ->
        fst (wait_for_http url max_retries poll_interval w) = Ok tt /\
        heads_done (snd (wait_for_http url max_retries poll_interval w)) = S k)
    /\
    ((forall k : nat, connection_failure (net w k url)) ->
     wait_for_http url max_retries poll_interval w
     = (Ok tt, after_cycles (Z.to_nat max_retries) url poll_interval w) /\
     heads_done (snd (wait_for_http url max_retries poll_interval w))
     = (heads_done w + Z.to_nat max_retries)%nat).
Proof.
  intros url max_retries poll_interval w Hpoll. unfold wait_for_http. split.
  - apply (wait_loop_stops_when_ready url max_retries poll_interval
             (Z.to_nat (max_retries - 0)) Hpoll 0 w eq_refl).
  - intros Hrefused.
    assert (Hrun : wait_loop url max_retries poll_interval 0 w
                   = (Ok tt,
                      after_cycles (Z.to_nat max_retries) url poll_interval w)).
    { apply wait_loop_all_retried; [exact Hpoll | f_equal; lia |].
      intros k. apply connection_failure_verdict, Hrefused. }
    split; [exact Hrun|].
    rewrite Hrun. apply after_cycles_heads_done.
Qed.

(** C2 (amended). A probe answered with an HTTP error status other than
    401 and 403 (a 500, say) does not leave [wait_for_http]: the exception
    is caught, the attempt is counted and the loop goes on with its next
    turn.  A server that only ever gives such answers makes the call use up
    its [max_retries] turns and return normally. *)
Theorem wait_for_http_swallows_other_http_errors :
  forall (url : string) (max_retries poll_interval : Z) w,
    0 <= poll_interval ->
    (forall count : Z,
        count < max_retries ->
        other_http_error (net w (heads_done w) url) ->
        wait_loop url max_retries poll_interval count w
        = wait_loop url max_retries poll_interval (count + 1)
            (after_cycle url poll_interval w))
    /\
    ((forall k : nat, other_http_error (net w k url)) ->
     wait_for_http url max_retries poll_interval w
     = (Ok tt, after_cycles (Z.to_nat max_retries) url poll_interval w)).
Proof.
  intros url max_retries poll_interval w Hpoll. split.
  - intros count Hlt Herr.
    rewrite wait_loop_cycle by assumption.
    now rewrite (other_http_error_verdict _ Herr).
  - intros Herr. unfold wait_for_http.
    apply wait_loop_all_retried; [exact Hpoll | f_equal; lia |].
    intros k. apply other_http_error_verdict, Herr.
Qed.

(* ===================================================================== *)
(** ** Further properties of the plugin                                   *)
(* ===================================================================== *)

(** *** Key pairs and security groups *)

(** X1. [_get_or_create_kp] looks the name up once.  When the listing is
    not empty it returns its first key pair and creates nothing; when it is
    empty it asks once for a new key pair of that name and ends as that
    request does, be it with the key pair or with the provider's exception. *)
Theorem get_or_create_kp_first_found_else_one_creation :
  forall (kp_name : value) w (kps : list KeyPair) (p1 : P),
    respond (KeyPairsFind kp_name) (cloud w) = (Ok kps, p1) ->
    (forall (kp : KeyPair) (rest : list KeyPair),
        kps = kp :: rest ->
        _get_or_create_kp kp_name w
        = (Ok kp, moved w p1 [Called (KeyPairsFind kp_name) None]))
    /\
    (kps = [] ->
     _get_or_create_kp kp_name w
     = (fst (respond (KeyPairsCreate kp_name) p1),
        moved w (snd (respond (KeyPairsCreate kp_name) p1))
          [Called (KeyPairsFind kp_name) None;
           Called (KeyPairsCreate kp_name)
             (raised_by (fst (respond (KeyPairsCreate kp_name) p1)))])).
Proof.
  intros kp_name w kps p1 Hfind. split.
  - intros kp rest ->. rewrite <- (moved_nothing w) at 1.
    unfold _get_or_create_kp, bind, key_pairs_find.
    rewrite (invoke_ok (KeyPairsFind kp_name) w _ _ _ p1 Hfind).
    reflexivity.
  - intros ->. rewrite <- (moved_nothing w) at 1.
    unfold _get_or_create_kp, bind, key_pairs_find, key_pairs_create.
    rewrite (invoke_ok (KeyPairsFind kp_name) w _ _ _ p1 Hfind). simpl.
    exact (invoke_moved (KeyPairsCreate kp_name) w p1
             [Called (KeyPairsFind kp_name) None]).
Qed.

Lemma inner_group_loop (sg1 : SecurityGroup) (sgs : list SecurityGroup) w :
  for_each sgs (fun sg2 => if sg_eqb sg1 sg2
                           then ret (Return sg1)
                           else ret (P := P) Next) w
  = (Ok (if existsb (sg_eqb sg1) sgs then Some sg1 else None), w).
Proof.
  induction sgs as [|sg2 sgs IH]; [reflexivity|].
  cbn [for_each existsb]. unfold bind.
  destruct (sg_eqb sg1 sg2); simpl; [reflexivity | exact IH].
Qed.

Lemma outer_group_loop (sgs all : list SecurityGroup) w :
  for_each sgs
    (fun sg1 =>
       bind (for_each all (fun sg2 => if sg_eqb sg1 sg2
                                      then ret (Return sg1)
                                      else ret Next))
         (fun inner => match inner with
                       | Some sg => ret (Return sg)
                       | None => ret Next
                       end)) w
  = (Ok (List.find (fun sg1 => existsb (sg_eqb sg1) all) sgs), w).
Proof.
  induction sgs as [|sg1 sgs IH]; [reflexivity|].
  cbn [for_each List.find]. unfold bind at 1. unfold bind at 1.
  rewrite inner_group_loop.
  destruct (existsb (sg_eqb sg1) all); simpl; [reflexivity | exact IH].
Qed.

(** X2. [_get_or_create_sg] looks the name up once and returns the first
    listed group that compares equal to a listed group, without resolving
    a network and without creating anything.  Only when the listing has no
    such group (an empty listing, for one) does it resolve the network id
    and ask for a new group with that name, description and network. *)
Theorem get_or_create_sg_first_match_else_network_and_creation :
  forall (cloudlaunch_config sg_name description : value) w
         (sgs : list SecurityGroup) (p1 : P),
    respond (SecurityGroupsFind sg_name) (cloud w) = (Ok sgs, p1) ->
    _get_or_create_sg cloudlaunch_config sg_name description w
    = match List.find (fun sg1 => existsb (sg_eqb sg1) sgs) sgs with
      | Some sg => (Ok sg, moved w p1 [Called (SecurityGroupsFind sg_name) None])
      | None =>
          bind (_get_network_id cloudlaunch_config)
            (fun network_id =>
               security_groups_create sg_name description network_id)
            (moved w p1 [Called (SecurityGroupsFind sg_name) None])
      end.
Proof.
  intros cfg sg_name description w sgs p1 Hfind.
  rewrite <- (moved_nothing w) at 1.
  unfold _get_or_create_sg, security_groups_find.
  unfold bind at 1.
  rewrite (invoke_ok (SecurityGroupsFind sg_name) w _ _ _ p1 Hfind).
  unfold bind at 1. rewrite outer_group_loop.
  destruct (List.find _ sgs); reflexivity.
Qed.

(** *** Launch configuration *)

(** X3. Only the string ["volume"] asks for a root volume: with any other
    [rootStorageType] (another spelling, a number, [None]),
    [_get_cb_launch_config] returns [None] and calls nothing. *)
Theorem get_cb_launch_config_none_unless_volume :
  forall (image : option Image) (entries : list (string * value))
         (v : value) w,
    assoc "rootStorageType" entries = Some v ->
    v <> VStr "volume" ->
    _get_cb_launch_config image (VDict entries) w = (Ok None, w).
Proof.
  intros image entries v w Hv Hneq.
  unfold _get_cb_launch_config, bind, lift, dict_get. rewrite Hv.
  assert (Hno : eq_str v "volume" = false).
  { destruct v as [| b | z | s | items | d]; try reflexivity.
    simpl. apply String.eqb_neq. intros ->. now apply Hneq. }
  rewrite Hno. reflexivity.
Qed.

(** X4. A [rootStorageSize] that [int()] refuses makes
    [_get_cb_launch_config] raise that very exception; by then the launch
    config has been created, and no device is ever added to it. *)
Theorem get_cb_launch_config_bad_size_raises_after_creation :
  forall (image : option Image) (entries : list (string * value))
         (v : value) (e : exn) (lc0 : LaunchConfig) (p1 : P) w,
    assoc "rootStorageType" entries = Some (VStr "volume") ->
    assoc "rootStorageSize" entries = Some v ->
    py_int v = Raise e ->
    respond CreateLaunchConfig (cloud w) = (Ok lc0, p1) ->
    _get_cb_launch_config image (VDict entries) w
    = (Raise e, moved w p1 [Called CreateLaunchConfig None]).
Proof.
  intros image entries v e lc0 p1 w Hvol Hsize Hint Hnew.
  rewrite <- (moved_nothing w) at 1.
  unfold _get_cb_launch_config, bind, lift, dict_get, create_launch_config.
  rewrite Hvol. simpl.
  rewrite (invoke_ok CreateLaunchConfig w _ _ lc0 p1 Hnew).
  rewrite Hsize, Hint. reflexivity.
Qed.

(** *** Firewall settings, continued *)

(** X5. A firewall group that gives no name, or an empty one, and no
    description is applied exactly as the group named
    ["CloudLaunchDefault"] with the description ["Created by CloudLaunch"]
    would be. *)
Theorem apply_group_defaults_name_and_description :
  forall (cloudlaunch_config : value) (group : list (string * value)) w,
    truthy (match assoc "securityGroup" group with
            | Some v => v
            | None => VNone
            end) = false ->
    truthy (match assoc "description" group with
            | Some v => v
            | None => VNone
            end) = false ->
    apply_group cloudlaunch_config (VDict group) w
    = apply_group cloudlaunch_config
        (VDict (("securityGroup", VStr "CloudLaunchDefault")
                :: ("description", VStr "Created by CloudLaunch") :: group)) w.
Proof.
  intros cfg group w Hname Hdesc.
  unfold apply_group, bind, lift, dict_get, py_or.
  rewrite Hname, Hdesc. reflexivity.
Qed.

(** X6. A rule that carries a [src_group] opens the group to itself and
    nothing else: which group it names, and the protocol and ports it
    gives, never reach the provider, so that two such rules are applied in
    the same way. *)
Theorem apply_rule_src_group_ignores_the_rest :
  forall (sg : SecurityGroup) (rule1 rule2 : list (string * value)) w,
    truthy (match assoc "src_group" rule1 with
            | Some v => v
            | None => VNone
            end) = true ->
    truthy (match assoc "src_group" rule2 with
            | Some v => v
            | None => VNone
            end) = true ->
    apply_rule sg (VDict rule1) w = apply_rule sg (VDict rule2) w /\
    exists raised : option exn,
      In (Called (AddRule sg (SrcGroup sg)) raised)
        (trace (snd (apply_rule sg (VDict rule1) w))).
Proof.
  intros sg rule1 rule2 w H1 H2.
  assert (Hrun : forall rule,
             truthy (match assoc "src_group" rule with
                     | Some v => v
                     | None => VNone
                     end) = true ->
             apply_rule sg (VDict rule) w
             = bind (try_except (add_rule sg (SrcGroup sg))
                       (fun e => print {| template := "%s";
                                          slots := [PExn e] |}))
                 (fun _ => ret Next) w).
  { intros rule Hr. unfold apply_rule, bind, try_except.
    rewrite add_rule_to_dict. unfold request_of. rewrite Hr. reflexivity. }
  split; [now rewrite (Hrun rule1 H1), (Hrun rule2 H2)|].
  rewrite (Hrun rule1 H1).
  unfold bind, try_except, add_rule, ret.
  pose proof (invoke_trace (AddRule sg (SrcGroup sg)) w) as Htr.
  destruct (invoke (AddRule sg (SrcGroup sg)) w) as [[[]|e] w1];
    simpl in Htr |- *.
  - exists None. rewrite Htr. apply in_or_app. right. now left.
  - exists (Some e). rewrite Htr. apply in_or_app. left.
    apply in_or_app. right. now left.
Qed.

(** X7. Malformed firewall settings fail before the provider is asked
    anything: a [firewall] value that cannot be iterated over, or a first
    entry that is not a dict, makes [apply_app_firewall_settings] raise and
    leaves the world as it was. *)
Theorem apply_app_firewall_settings_malformed_fails_untouched :
  forall (entries : list (string * value)) (e : exn) w,
    (forall fw : value,
        assoc "firewall" entries = Some fw ->
        py_iter fw = Raise e ->
        apply_app_firewall_settings (VDict entries) w = (Raise e, w))
    /\
    (forall (group : value) (others : list value),
        assoc "firewall" entries = Some (VList (group :: others)) ->
        dict_get group "securityGroup" VNone = Raise e ->
        apply_app_firewall_settings (VDict entries) w = (Raise e, w)).
Proof.
  intros entries e w. split.
  - intros fw Hfw Hiter.
    unfold apply_app_firewall_settings, bind, lift, dict_get.
    rewrite Hfw, Hiter. reflexivity.
  - intros group others Hfw Hgroup.
    unfold apply_app_firewall_settings, bind, lift, dict_get.
    rewrite Hfw. cbn [py_iter for_each].
    unfold bind, apply_group, bind, lift. rewrite Hgroup. reflexivity.
Qed.

(** X8. [apply_app_firewall_settings] returns [None] only when the
    firewall setting holds nothing to iterate over, and then it has left
    the world as it was: a normal return on at least one group always
    carries a security group. *)
Theorem apply_app_firewall_settings_none_only_when_empty :
  forall (cloudlaunch_config : value) w w',
    apply_app_firewall_settings cloudlaunch_config w = (Ok None, w') ->
    w' = w /\
    exists fw : value,
      dict_get cloudlaunch_config "firewall" (VList []) = Ok fw /\
      py_iter fw = Ok [].
Proof.
  intros cfg w w'. unfold apply_app_firewall_settings, bind, lift.
  destruct (dict_get cfg "firewall" (VList [])) as [fw|e]; [|discriminate].
  destruct (py_iter fw) as [[|group others]|e] eqn:Hiter; [| |discriminate].
  - cbn [for_each]. unfold ret. intros E. injection E as <-. eauto.
  - cbn [for_each]. unfold bind, ret.
    destruct (apply_group cfg group w) as [[sg|e] w1]; discriminate.
Qed.

(** *** User data *)

(** X9. [process_app_config] returns what [app_config] holds under
    [config_cloudlaunch] / [instance_user_data], and the empty dict when
    either key is missing, whatever the other arguments are; it raises an
    [AttributeError] when [config_cloudlaunch] is there but is not a dict. *)
Theorem process_app_config_user_data_or_empty_dict :
  forall (name : string) (cvc : CloudVersionConfig) (credentials : value)
         (app_entries : list (string * value)),
    (assoc "config_cloudlaunch" app_entries = None ->
     process_app_config name cvc credentials (VDict app_entries)
     = Ok (VDict []))
    /\
    (forall config : list (string * value),
        assoc "config_cloudlaunch" app_entries = Some (VDict config) ->
        process_app_config name cvc credentials (VDict app_entries)
        = Ok (match assoc "instance_user_data" config with
              | Some user_data => user_data
              | None => VDict []
              end))
    /\
    (forall v : value,
        assoc "config_cloudlaunch" app_entries = Some v ->
        (forall config, v <> VDict config) ->
        process_app_config name cvc credentials (VDict app_entries)
        = Raise (AttributeError "object has no attribute 'get'")).
Proof.
  intros name cvc credentials app_entries. split; [|split].
  - intros Hnone. unfold process_app_config, dict_get. rewrite Hnone.
    reflexivity.
  - intros config Hcfg. unfold process_app_config, dict_get. rewrite Hcfg.
    reflexivity.
  - intros v Hv Hnot. unfold process_app_config. simpl. rewrite Hv.
    destruct v; try reflexivity. now destruct (Hnot entries).
Qed.

(** *** Waiting for the application, continued *)

Lemma after_cycles_cloud (n : nat) (url : string) (poll_interval : Z) w :
  cloud (after_cycles n url poll_interval w) = cloud w.
Proof. revert w. induction n; intros w; simpl; [|rewrite IHn]; reflexivity. Qed.

Lemma after_cycles_last (n : nat) (url : string) (poll_interval : Z) w :
  after_cycle url poll_interval (after_cycles n url poll_interval w)
  = after_cycles (S n) url poll_interval w.
Proof.
  revert w. induction n as [|n IH]; intros w; [reflexivity|].
  simpl. now rewrite IH.
Qed.

Lemma wait_loop_shape (url : string) (max_retries poll_interval : Z) (n : nat) :
  forall (count : Z) w,
    Z.to_nat (max_retries - count) = n ->
    exists m : nat,
      (m <= n)%nat /\
      snd (wait_loop url max_retries poll_interval count w)
      = after_cycles m url poll_interval w.
Proof.
  induction n as [|n IH]; intros count w Hn.
  - exists 0%nat. rewrite wait_loop_done by lia. split; [lia | reflexivity].
  - rewrite wait_loop_step.
    rewrite (proj2 (Z.ltb_lt count max_retries)) by lia.
    unfold time_sleep. destruct (poll_interval <? 0).
    + exists 0%nat. split; [lia | reflexivity].
    + rewrite probe_verdict.
      destruct (verdict (net w (heads_done w) url)) as [[|[]]|e].
      * destruct (IH (count + 1) (after_cycle url poll_interval w))
          as (m & Hm & Erun); [lia|].
        exists (S m). split; [lia|]. rewrite Erun. reflexivity.
      * exists 1%nat. split; [lia | reflexivity].
      * exists 1%nat. split; [lia | reflexivity].
Qed.

(** X10. However the server behaves and however the call ends,
    [wait_for_http] sends at most [max_retries] probes (none when
    [max_retries] is zero or negative), each after one sleep of
    [poll_interval], and it never touches the provider. *)
Theorem wait_for_http_at_most_max_retries_probes :
  forall (url : string) (max_retries poll_interval : Z) w,
    exists n : nat,
      (n <= Z.to_nat max_retries)%nat /\
      snd (wait_for_http url max_retries poll_interval w)
      = after_cycles n url poll_interval w /\
      cloud (snd (wait_for_http url max_retries poll_interval w)) = cloud w /\
      heads_done (snd (wait_for_http url max_retries poll_interval w))
      = (heads_done w + n)%nat.
Proof.
  intros url max_retries poll_interval w. unfold wait_for_http.
  destruct (wait_loop_shape url max_retries poll_interval
              (Z.to_nat (max_retries - 0)) 0 w eq_refl) as (n & Hn & Erun).
  exists n. split; [lia|]. split; [exact Erun|]. rewrite Erun.
  split; [apply after_cycles_cloud | apply after_cycles_heads_done].
Qed.

Lemma no_error_status_verdict (o : outcome Response) :
  no_error_status o -> verdict o = Ok (Return tt).
Proof.
  intros (r & -> & Hr). unfold verdict.
  destruct ((400 <=? status_code r) && (status_code r <? 600)) eqn:Herr;
    [|reflexivity].
  apply andb_true_iff in Herr as [Hlo Hhi].
  apply Z.leb_le in Hlo. apply Z.ltb_lt in Hhi. lia.
Qed.

Lemma retried_verdict (o : outcome Response) :
  retried o -> verdict o = Ok Next.
Proof.
  intros [Hc | Hh];
    [now apply connection_failure_verdict | now apply other_http_error_verdict].
Qed.

Lemma unexpected_failure_verdict (e : exn) :
  unexpected_failure e -> verdict (Raise e) = Raise e.
Proof.
  intros [Hhttp Hconn].
  destruct e as [| | | | code | msg | |]; try reflexivity.
  - now destruct (Hhttp code).
  - now destruct (Hconn msg).
Qed.

(** The loop after [k] retried probes. *)
Lemma wait_loop_after_retries (url : string) (max_retries poll_interval : Z)
    (k : nat) :
  0 <= poll_interval ->
  forall (count : Z) w,
    count + Z.of_nat k <= max_retries ->
    (forall i : nat, (i < k)%nat -> retried (net w (heads_done w + i)%nat url)) ->
    wait_loop url max_retries poll_interval count w
    = wait_loop url max_retries poll_interval (count + Z.of_nat k)
        (after_cycles k url poll_interval w).
Proof.
  intros Hpoll. induction k as [|k IH]; intros count w Hle Hretried.
  - simpl. now rewrite Z.add_0_r.
  - rewrite wait_loop_cycle by lia.
    pose proof (Hretried 0%nat ltac:(lia)) as Hfirst.
    rewrite Nat.add_0_r in Hfirst. rewrite (retried_verdict _ Hfirst).
    rewrite IH.
    + simpl. f_equal. lia.
    + lia.
    + intros i Hi.
      change (heads_done (after_cycle url poll_interval w))
        with (S (heads_done w)).
      change (net (after_cycle url poll_interval w)) with (net w).
      replace (S (heads_done w) + i)%nat with (heads_done w + S i)%nat by lia.
      apply Hretried. lia.
Qed.

(** X11. Any answer that [raise_for_status] lets through counts as ready,
    a redirect (3xx) or an informational answer (1xx) as much as a 2xx:
    after [k] retried probes, the probe that gets such an answer is the
    last one, and [wait_for_http] returns normally. *)
Theorem wait_for_http_any_status_below_400_is_ready :
  forall (url : string) (max_retries poll_interval : Z) (k : nat) w,
    0 <= poll_interval ->
    Z.of_nat k < max_retries ->
    (forall i : nat, (i < k)%nat -> retried (net w (heads_done w + i)%nat url)) ->
    no_error_status (net w (heads_done w + k)%nat url) ->
    wait_for_http url max_retries poll_interval w
    = (Ok tt, after_cycles (S k) url poll_interval w).
Proof.
  intros url max_retries poll_interval k w Hpoll Hk Hretried Hready.
  unfold wait_for_http.
  rewrite (wait_loop_after_retries url max_retries poll_interval k Hpoll 0 w)
    by (assumption || lia).
  rewrite wait_loop_cycle by lia.
  rewrite after_cycles_net, after_cycles_heads_done.
  rewrite (no_error_status_verdict _ Hready).
  now rewrite after_cycles_last.
Qed.

(** X12. A failure of the request that is neither an [HTTPError] nor a
    [ConnectionError] (a read timeout, a malformed URL) is not caught:
    after [k] retried probes, the probe that fails so ends [wait_for_http]
    with that exception, and no further probe is sent. *)
Theorem wait_for_http_unexpected_failure_propagates :
  forall (url : string) (max_retries poll_interval : Z) (k : nat) (e : exn) w,
    0 <= poll_interval ->
    Z.of_nat k < max_retries ->
    (forall i : nat, (i < k)%nat -> retried (net w (heads_done w + i)%nat url)) ->
    net w (heads_done w + k)%nat url = Raise e ->
    unexpected_failure e ->
    wait_for_http url max_retries poll_interval w
    = (Raise e, after_cycles (S k) url poll_interval w).
Proof.
  intros url max_retries poll_interval k e w Hpoll Hk Hretried Hfail He.
  unfold wait_for_http.
  rewrite (wait_loop_after_retries url max_retries poll_interval k Hpoll 0 w)
    by (assumption || lia).
  rewrite wait_loop_cycle by lia.
  rewrite after_cycles_net, after_cycles_heads_done, Hfail.
  rewrite (unexpected_failure_verdict _ He).
  now rewrite after_cycles_last.
Qed.

(** *** Floating IP allocation, continued *)

Lemma invoke_run (c : call) w (o : outcome (answer c)) w' :
  invoke c w = (o, w') ->
  trace w' = (trace w ++ [Called c (raised_by o)])%list.
Proof.
  intros E. pose proof (invoke_trace c w) as Htr.
  rewrite E in Htr. exact Htr.
Qed.

(** C10 (amended). The last branch of [attach_public_ip], its
    [else: return None], is never taken: the empty and the non-empty list
    of public IPs cover every instance.  What a normal return carries is
    the address the provider's objects hold, handed on unchecked: the first
    entry of the instance's list, with nothing called, or the [public_ip]
    of the floating IP whose attachment the run ends on.  It is [None]
    exactly when that entry or attribute is. *)
Theorem attach_public_ip_hands_on_the_provider_address :
  forall inst w (r : option string) w',
    attach_public_ip inst w = (Ok r, w') ->
    (exists others : list (option string),
        public_ips inst = r :: others /\ w' = w)
    \/
    (public_ips inst = [] /\
     exists (fip : FloatingIP) (evs : list event),
       r = public_ip fip /\
       trace w'
       = (trace w ++ evs
          ++ [Called (AddFloatingIp inst (address_value (public_ip fip)))
                None])%list).
Proof.
  intros inst w r w'. unfold attach_public_ip.
  destruct (public_ips inst) as [|ip others]; simpl.
  - unfold bind, ret, floating_ips, create_floating_ip, add_floating_ip, print.
    destruct (invoke FloatingIps w) as [[fips|e] w1] eqn:E1; [|discriminate].
    apply invoke_run in E1. intros Hrun. right. split; [reflexivity|].
    destruct (scan_floating_ips fips None) as [fip|].
    + destruct (invoke (AddFloatingIp inst (address_value (public_ip fip))) _)
        as [[inst'|e] w2] eqn:E2; [|discriminate].
      apply invoke_run in E2. injection Hrun as <- <-.
      exists fip. eexists [_; _]. split; [reflexivity|].
      rewrite E2. unfold log; simpl. rewrite E1.
      rewrite <- !app_assoc. reflexivity.
    + destruct (invoke CreateFloatingIp w1) as [[fip|e] w2] eqn:E2;
        [|discriminate].
      apply invoke_run in E2.
      destruct (invoke (AddFloatingIp inst (address_value (public_ip fip))) w2)
        as [[inst'|e] w3] eqn:E3; [|discriminate].
      apply invoke_run in E3. injection Hrun as <- <-.
      exists fip. eexists [_; _]. split; [reflexivity|].
      rewrite E3, E2, E1. simpl. rewrite <- !app_assoc. reflexivity.
  - unfold bind, lift, ret; simpl.
    intros E; injection E as <- <-. left. eauto.
Qed.

(** X13. The address that [attach_public_ip] returns for an instance
    without a public IP is the address it has just attached: the run ends
    on the successful [add_floating_ip] of that address to that instance. *)
Theorem attach_public_ip_returns_the_attached_address :
  forall inst w (ip : option string) w',
    public_ips inst = [] ->
    attach_public_ip inst w = (Ok ip, w') ->
    exists evs : list event,
      trace w'
      = (trace w ++ evs
         ++ [Called (AddFloatingIp inst (address_value ip)) None])%list.
Proof.
  intros inst w ip w' Hnone. unfold attach_public_ip. rewrite Hnone. simpl.
  unfold bind, ret, floating_ips, create_floating_ip, add_floating_ip, print.
  destruct (invoke FloatingIps w) as [[fips|e] w1] eqn:E1; [|discriminate].
  apply invoke_run in E1.
  destruct (scan_floating_ips fips None) as [fip|].
  - destruct (invoke (AddFloatingIp inst (address_value (public_ip fip))) _)
      as [[inst'|e] w2] eqn:E2; [|discriminate].
    apply invoke_run in E2. intros E. injection E as <- <-.
    eexists [_; _]. rewrite E2. unfold log; simpl. rewrite E1.
    rewrite <- !app_assoc. reflexivity.
  - destruct (invoke CreateFloatingIp w1) as [[fip|e] w2] eqn:E2;
      [|discriminate].
    apply invoke_run in E2.
    destruct (invoke (AddFloatingIp inst (address_value (public_ip fip))) w2)
      as [[inst'|e] w3] eqn:E3; [|discriminate].
    apply invoke_run in E3. intros E. injection E as <- <-.
    eexists [_; _]. rewrite E3, E2, E1. simpl.
    rewrite <- !app_assoc. reflexivity.
Qed.

(** *** The orchestrator *)

Lemma returns_anything {A : Type} (m : World P -> outcome A * World P) :
  returns anything m.
Proof. intros w a w' _. exact I. Qed.

Lemma returns_ret {A : Type} (R : A -> Prop) (a : A) :
  R a -> returns (P := P) R (ret a).
Proof. intros Ha w a' w' E. injection E as <- _. exact Ha. Qed.

Lemma returns_bind {A B : Type} (R : A -> Prop) (R' : B -> Prop)
    (m : World P -> outcome A * World P)
    (k : A -> World P -> outcome B * World P) :
  returns R m -> (forall a, R a -> returns R' (k a)) -> returns R' (bind m k).
Proof.
  intros Hm Hk w b w'. unfold bind.
  destruct (m w) as [[a|e] w1] eqn:Em; [|discriminate].
  intros Ek. exact (Hk a (Hm w a w1 Em) w1 b w' Ek).
Qed.

(** X14. Whenever [launch_app] returns a result, its application URL
    is determined by the public IP it reports: no URL for a plugin that is
    not the base application; else ["N/A"] when the address is [None] or
    the empty string, and [http://<address>/] otherwise. *)
Theorem launch_app_result_url_follows_address :
  forall (base_app : bool) (name : string) (cvc : CloudVersionConfig)
         (credentials app_config user_data : value) w
         (res : LaunchResult) w',
    launch_app base_app name cvc credentials app_config user_data w
      = (Ok res, w') ->
    applicationURL res = url_for base_app (publicIP res).
Proof.
  intros base_app name cvc credentials app_config user_data.
  change (returns
            (fun res => applicationURL res = url_for base_app (publicIP res))
            (launch_app base_app name cvc credentials app_config user_data)).
  unfold launch_app.
  do 24 (apply returns_bind with (R := anything);
         [apply returns_anything | intros ? _]).
  match goal with
  | |- returns _ (bind _ (fun _ => ret {| publicIP := ?r |})) =>
      apply returns_bind with (R := fun u => u = url_for base_app r)
  end.
  - unfold url_for, has_address. destruct base_app; [|now apply returns_ret].
    match goal with
    | |- returns _ (if match ?r with _ => _ end then _ else _) =>
        destruct r as [ip|]; [|now apply returns_ret]
    end.
    destruct (String.eqb ip ""); simpl; [now apply returns_ret|].
    apply returns_bind with (R := anything); [apply returns_anything|].
    intros _ _.
    apply returns_bind with (R := anything); [apply returns_anything|].
    intros _ _. now apply returns_ret.
  - intros u ->. apply returns_ret. reflexivity.
Qed.

Section EmitsEverywhere.

Variable Q : event -> Prop.

Lemma emits_raise {A : Type} (e : exn) :
  emits (P := P) Q anything (raise (A := A) e).
Proof.
  intros w. exists []. simpl. rewrite app_nil_r. repeat split; auto.
Qed.

Lemma emits_same {A : Type} (R : A -> Prop) (m m' : World P -> outcome A * World P) :
  (forall w, m w = m' w) -> emits Q R m' -> emits Q R m.
Proof. intros Heq Hm w. rewrite Heq. apply Hm. Qed.

Lemma emits_time_sleep (seconds : Z) :
  Q (Slept seconds) -> emits (P := P) Q anything (time_sleep seconds).
Proof.
  intros HQ w. unfold time_sleep. destruct (seconds <? 0).
  - exists []. simpl. rewrite app_nil_r. repeat split; auto.
  - exists [Slept seconds]. repeat split. now constructor.
Qed.

Lemma emits_requests_head (url : string) :
  Q (Head url) -> emits (P := P) Q anything (requests_head url).
Proof.
  intros HQ w. exists [Head url]. repeat split. now constructor.
Qed.

Lemma emits_try_except {A : Type} (body : World P -> outcome A * World P)
    (handler : exn -> World P -> outcome A * World P) :
  emits Q anything body ->
  (forall e, emits Q anything (handler e)) ->
  emits Q anything (try_except body handler).
Proof.
  intros Hb Hh w. destruct (Hb w) as (evs & Etr & HQ & _).
  unfold try_except. destruct (body w) as [[a|e] w1]; simpl in *.
  - exists evs. repeat split; assumption.
  - destruct (Hh e w1) as (evs' & Etr' & HQ' & _).
    exists (evs ++ evs')%list. rewrite Etr', Etr, app_assoc.
    repeat split. apply Forall_app. now split.
Qed.

Lemma emits_for_each {A R : Type} (xs : list A)
    (body : A -> World P -> outcome (flow R) * World P) :
  (forall x, emits Q anything (body x)) ->
  emits Q anything (for_each xs body).
Proof.
  intros Hbody. induction xs as [|x xs IH]; cbn [for_each].
  - apply emits_ret.
  - apply emits_bind with (R := anything); [apply Hbody|].
    intros [|r] _; [exact IH | apply emits_ret].
Qed.

Lemma after_cycles_trace (n : nat) (url : string) (poll_interval : Z) w :
  Q (Slept poll_interval) -> Q (Head url) ->
  exists evs : list event,
    trace (after_cycles n url poll_interval w) = (trace w ++ evs)%list /\
    Forall Q evs.
Proof.
  intros Hs Hh. revert w. induction n as [|n IH]; intros w.
  - exists []. simpl. now rewrite app_nil_r.
  - destruct (IH (after_cycle url poll_interval w)) as (evs & Etr & HQ).
    exists ([Slept poll_interval; Head url] ++ evs)%list.
    simpl. rewrite Etr. simpl. rewrite <- app_assoc. split; [reflexivity|].
    repeat constructor; assumption.
Qed.

Lemma emits_wait_for_http (url : string) (max_retries poll_interval : Z) :
  Q (Slept poll_interval) -> Q (Head url) ->
  emits (P := P) Q anything (wait_for_http url max_retries poll_interval).
Proof.
  intros Hs Hh w. unfold wait_for_http.
  destruct (wait_loop_shape url max_retries poll_interval
              (Z.to_nat (max_retries - 0)) 0 w eq_refl) as (n & _ & Erun).
  destruct (after_cycles_trace n url poll_interval w Hs Hh) as (evs & Etr & HQ).
  exists evs. rewrite Erun. repeat split; assumption.
Qed.

End EmitsEverywhere.

(** Walks through a computation of the plugin; [side] settles what is asked
    of each event. *)
Ltac emit_by side :=
  repeat first
    [ apply emits_ret
    | apply emits_raise
    | match goal with
      | |- emits ?q _ (invoke ?c) => apply (emits_invoke q c); intros ?; side
      end
    | apply emits_print; side
    | apply emits_update_state; side
    | apply emits_lift; exact (fun _ _ => I)
    | apply emits_time_sleep; side
    | apply emits_requests_head; side
    | apply emits_wait_for_http; side
    | apply emits_for_each; intros ?
    | apply emits_try_except; [|intros ?]
    | eapply emits_bind with (R := anything); [|intros ? _]
    | match goal with
      | |- emits _ _ (if ?b then _ else _) => destruct b
      | |- emits _ _ (match ?x with _ => _ end) => destruct x
      end ].

Ltac open_plugin :=
  unfold launch_app, attach_public_ip, apply_app_firewall_settings,
    apply_group, apply_rule, add_rule_to, _get_or_create_sg, _get_network_id,
    _get_cb_launch_config, _get_or_create_kp,
    get_cloud_provider, images_get, key_pairs_find, key_pairs_create,
    security_groups_find, security_groups_create, add_rule,
    get_or_create_default, floating_ips, create_floating_ip,
    create_launch_config, add_volume_device, instances_create,
    wait_till_ready, add_floating_ip, refresh;
  cbv zeta.

Ltac is_progressing :=
  unfold progressing;
  let E := fresh in
  intros ? ? E; first [ discriminate E | injection E as <-; reflexivity ].

Ltac is_no_probe :=
  unfold no_probe; intros ?; discriminate.

Lemma launch_app_emits_progressing (base_app : bool) (name : string)
    (cvc : CloudVersionConfig) (credentials app_config user_data : value) :
  emits (P := P) progressing anything
    (launch_app base_app name cvc credentials app_config user_data).
Proof. open_plugin. emit_by is_progressing. Qed.

Lemma launch_app_emits_no_probe (name : string)
    (cvc : CloudVersionConfig) (credentials app_config user_data : value) :
  emits (P := P) no_probe anything
    (launch_app false name cvc credentials app_config user_data).
Proof. open_plugin. emit_by is_no_probe. Qed.

(** X15. The only state [launch_app] ever reports to the task is
    ["PROGRESSING"], however the run goes and however it ends. *)
Theorem launch_app_reports_progressing_only :
  forall (base_app : bool) (name : string) (cvc : CloudVersionConfig)
         (credentials app_config user_data : value) w,
    exists evs : list event,
      trace (snd (launch_app base_app name cvc credentials app_config
                    user_data w))
        = (trace w ++ evs)%list /\
      forall (state : string) (action : message),
        In (StateUpdated state action) evs -> state = "PROGRESSING".
Proof.
  intros base_app name cvc credentials app_config user_data w.
  destruct (launch_app_emits_progressing base_app name cvc credentials
              app_config user_data w) as (evs & Etr & HQ & _).
  exists evs. split; [exact Etr|].
  intros state action Hin. rewrite Forall_forall in HQ.
  exact (HQ _ Hin state action eq_refl).
Qed.

(** X16. A plugin that is not the base application never waits for the
    application: its [launch_app] sends no HTTP request, whatever the
    configuration and the provider, and however the run ends. *)
Theorem launch_app_other_plugin_sends_no_probe :
  forall (name : string) (cvc : CloudVersionConfig)
         (credentials app_config user_data : value) w,
    exists evs : list event,
      trace (snd (launch_app false name cvc credentials app_config
                    user_data w))
        = (trace w ++ evs)%list /\
      forall url : string, ~ In (Head url) evs.
Proof.
  intros name cvc credentials app_config user_data w.
  destruct (launch_app_emits_no_probe name cvc credentials app_config
              user_data w) as (evs & Etr & HQ & _).
  exists evs. split; [exact Etr|].
  intros url Hin. rewrite Forall_forall in HQ.
  exact (HQ _ Hin url eq_refl).
Qed.

End Properties.

(* ===================================================================== *)
(** ** Runs on the reference provider                                     *)
(* ===================================================================== *)

Lemma attach_public_ip_existing_address_witness :
  public_ips addressed_instance = Some "9.9.9.9" :: [Some "8.8.8.8"] /\
  attach_public_ip addressed_instance (start cloud_with_ip refused)
  = (Ok (Some "9.9.9.9"), start cloud_with_ip refused).
Proof.
  split; [reflexivity|].
  apply (attach_public_ip_existing_address_no_provider_call
           addressed_instance (Some "9.9.9.9") [Some "8.8.8.8"]).
  reflexivity.
Defined.


Lemma attach_public_ip_last_free_address_witness :
  attach_public_ip bare_instance (start cloud_with_three_ips refused)
  = (Ok (Some "2.2.2.2"),
     moved (start cloud_with_three_ips refused)
       (Sim.set_addresses cloud_with_three_ips
          [{| public_ip := Some "1.1.1.1"; in_use := false |};
           {| public_ip := Some "2.2.2.2"; in_use := true |};
           {| public_ip := Some "3.3.3.3"; in_use := true |}] [])
       [Called FloatingIps None;
        Printed {| template := "Attaching an existing floating IP %s";
                   slots := [PStr "2.2.2.2"] |};
        Called (AddFloatingIp bare_instance (VStr "2.2.2.2")) None])
  /\
  attach_public_ip bare_instance (start cloud_with_pool refused)
  = (Ok (Some "5.6.7.8"),
     moved (start cloud_with_pool refused)
       (Sim.set_addresses cloud_with_pool
          [{| public_ip := Some "3.3.3.3"; in_use := true |};
           {| public_ip := Some "5.6.7.8"; in_use := true |}] [])
       [Called FloatingIps None;
        Called CreateFloatingIp None;
        Called (AddFloatingIp bare_instance (VStr "5.6.7.8")) None]).
Proof.
  split.
  - refine (proj1 (attach_public_ip_last_free_address_else_one_new
                     bare_instance (start cloud_with_three_ips refused)
                     (Sim.addresses cloud_with_three_ips)
                     cloud_with_three_ips eq_refl eq_refl)
              [{| public_ip := Some "1.1.1.1"; in_use := false |}]
              [{| public_ip := Some "3.3.3.3"; in_use := true |}]
              {| public_ip := Some "2.2.2.2"; in_use := false |}
              {| inst_id := "i-0001"; public_ips := [Some "2.2.2.2"] |}
              _ eq_refl eq_refl _ eq_refl).
    intros ip [<- | []]. reflexivity.
  - refine (proj2 (attach_public_ip_last_free_address_else_one_new
                     bare_instance (start cloud_with_pool refused)
                     (Sim.addresses cloud_with_pool)
                     cloud_with_pool eq_refl eq_refl)
              {| public_ip := Some "5.6.7.8"; in_use := false |}
              {| inst_id := "i-0001"; public_ips := [Some "5.6.7.8"] |}
              _ _ _ eq_refl eq_refl).
    intros ip [<- | []]. reflexivity.
Defined.

Lemma attach_public_ip_hands_on_the_provider_address_witness :
  (exists others : list (option string),
      public_ips bare_instance = Some "1.2.3.4" :: others /\
      snd (attach_public_ip bare_instance (start cloud_with_ip refused))
      = start cloud_with_ip refused)
  \/
  (public_ips bare_instance = [] /\
   exists (fip : FloatingIP) (evs : list event),
     Some "1.2.3.4" = public_ip fip /\
     trace (snd (attach_public_ip bare_instance (start cloud_with_ip refused)))
     = (trace (start cloud_with_ip refused) ++ evs
        ++ [Called (AddFloatingIp bare_instance
                      (address_value (public_ip fip))) None])%list).
Proof.
  apply (attach_public_ip_hands_on_the_provider_address
           bare_instance (start cloud_with_ip refused) (Some "1.2.3.4")
           (snd (attach_public_ip bare_instance (start cloud_with_ip refused)))).
  reflexivity.
Defined.

(** C10 as first stated fails on an instance whose list of public IPs
    holds [None]: the list is not empty, so its first entry is returned as
    it is, and [attach_public_ip] returns [None] normally, with nothing
    called.  [launch_app] provides for it: on an account whose instance
    comes up with such a list it returns a result without public IP, whose
    application URL is ["N/A"]. *)
Lemma attach_public_ip_returns_none_normally :
  attach_public_ip unaddressed_instance (start empty_cloud refused)
  = (Ok None, start empty_cloud refused)
  /\
  fst (launch_app true "vm" cvc0 VNone app_config_one_group VNone
         (start cloud_booting_without_address refused))
  = Ok {| keyPair := ("cloudlaunch_key_pair", "cloudlaunch_key_pair",
                      Some "PRIVATE KEY");
          securityGroup := ("sg-App", "App");
          instance := "i-0001";
          publicIP := None;
          applicationURL := Some "N/A" |}.
Proof. split; vm_compute; reflexivity. Qed.

Lemma get_network_id_witness :
  _get_network_id (VDict [("network", VStr "net-42")])
    (start empty_cloud refused)
  = (Ok (VStr "net-42"), start empty_cloud refused)
  /\
  _get_network_id (VDict [("subnet", VStr "s-1")]) (start empty_cloud refused)
  = (Ok (VStr "net-default"),
     moved (start empty_cloud refused)
       (Sim.set_network empty_cloud (Some {| net_id := "net-default" |}))
       [Called GetOrCreateDefault None]).
Proof.
  split.
  - exact (proj1 (get_network_id_verbatim_when_truthy_else_default
                    [("network", VStr "net-42")] (start empty_cloud refused))
             (VStr "net-42") eq_refl eq_refl).
  - exact (proj2 (get_network_id_verbatim_when_truthy_else_default
                    [("subnet", VStr "s-1")] (start empty_cloud refused))
             {| net_id := "net-default" |}
             (Sim.set_network empty_cloud (Some {| net_id := "net-default" |}))
             (or_introl eq_refl) eq_refl).
Defined.

(** C8 as first stated fails on a [network] key that is present but empty:
    the value is not returned as it is; the provider's default network is
    fetched (here: created) and its id returned. *)
Lemma get_network_id_present_but_empty_not_verbatim :
  assoc "network" [("network", VStr "")] = Some (VStr "")
  /\ fst (_get_network_id (VDict [("network", VStr "")])
            (start empty_cloud refused))
     = Ok (VStr "net-default")
  /\ fst (_get_network_id (VDict [("network", VStr "")])
            (start empty_cloud refused))
     <> Ok (VStr "")
  /\ trace (snd (_get_network_id (VDict [("network", VStr "")])
                   (start empty_cloud refused)))
     = [Called GetOrCreateDefault None].
Proof.
  repeat split; try reflexivity.
  vm_compute. discriminate.
Qed.

Lemma get_cb_launch_config_witness :
  _get_cb_launch_config (Some {| image_id := "ami-1" |})
    (VDict [("rootStorageType", VStr "instance")]) (start empty_cloud refused)
  = (Ok None, start empty_cloud refused)
  /\
  _get_cb_launch_config (Some {| image_id := "ami-1" |})
    (VDict [("rootStorageType", VStr "volume");
            ("rootStorageSize", VStr "50")]) (start empty_cloud refused)
  = (Ok (Some {| block_devices :=
                   [{| is_volume := true;
                       source := Some {| image_id := "ami-1" |};
                       is_root := true; size := 50 |}] |}),
     moved (start empty_cloud refused) empty_cloud
       [Called CreateLaunchConfig None;
        Called (AddVolumeDevice {| block_devices := [] |}
                  (Some {| image_id := "ami-1" |}) 50 true) None])
  /\
  fst (_get_cb_launch_config (Some {| image_id := "ami-1" |})
         (VDict [("rootStorageType", VStr "volume")])
         (start empty_cloud refused))
  = Ok (Some {| block_devices :=
                  [{| is_volume := true;
                      source := Some {| image_id := "ami-1" |};
                      is_root := true; size := 20 |}] |}).
Proof.
  split; [|split].
  - exact (proj1 (get_cb_launch_config_root_volume_only_when_asked
                    (Some {| image_id := "ami-1" |})
                    [("rootStorageType", VStr "instance")]
                    (start empty_cloud refused))
             (or_intror eq_refl)).
  - exact (proj2 (get_cb_launch_config_root_volume_only_when_asked
                    (Some {| image_id := "ami-1" |})
                    [("rootStorageType", VStr "volume");
                     ("rootStorageSize", VStr "50")]
                    (start empty_cloud refused))
             50 {| block_devices := [] |} _ empty_cloud empty_cloud
             eq_refl
             (or_intror (ex_intro _ (VStr "50") (conj eq_refl eq_refl)))
             eq_refl eq_refl).
  - rewrite (proj2 (get_cb_launch_config_root_volume_only_when_asked
                      (Some {| image_id := "ami-1" |})
                      [("rootStorageType", VStr "volume")]
                      (start empty_cloud refused))
               20 {| block_devices := [] |}
               {| block_devices :=
                    [{| is_volume := true;
                        source := Some {| image_id := "ami-1" |};
                        is_root := true; size := 20 |}] |}
               empty_cloud empty_cloud).
    + reflexivity.
    + reflexivity.
    + left. split; reflexivity.
    + reflexivity.
    + reflexivity.
Defined.

Lemma apply_app_firewall_settings_swallows_rule_failures_witness :
  exists (w2 : World Sim.Cloud) (blocks : list (list event)),
    apply_app_firewall_settings mixed_config (start cloud_with_app_group refused)
      = (Ok (Some app_group), w2) /\
    trace w2
      = (trace (moved (start cloud_with_app_group refused) cloud_with_app_group
                  [Called (SecurityGroupsFind (VStr "App")) None])
         ++ List.concat blocks)%list /\
    Forall2 (rule_block app_group) mixed_rules blocks.
Proof.
  apply (apply_app_firewall_settings_swallows_rule_failures
           [("firewall", VList [group_of "App" mixed_rules])]
           [("securityGroup", VStr "App"); ("rules", VList mixed_rules)]
           [] mixed_rules app_group
           (start cloud_with_app_group refused)
           (moved (start cloud_with_app_group refused) cloud_with_app_group
              [Called (SecurityGroupsFind (VStr "App")) None]));
    reflexivity.
Defined.

Lemma apply_app_firewall_settings_first_group_only_witness :
  apply_app_firewall_settings two_groups (start empty_cloud refused)
  = apply_app_firewall_settings
      (VDict [("firewall", VList [group_of "App" [ssh_rule]])])
      (start empty_cloud refused)
  /\ fst (apply_app_firewall_settings two_groups (start empty_cloud refused))
     = Ok (Some app_group).
Proof.
  destruct (apply_app_firewall_settings_first_group_only
              [("firewall", VList [group_of "App" [ssh_rule];
                                   group_of "Db" [ssh_rule]])]
              (group_of "App" [ssh_rule]) [group_of "Db" [ssh_rule]]
              (start empty_cloud refused) eq_refl) as [Hfirst Hcut].
  split.
  - exact Hcut.
  - unfold two_groups. rewrite Hfirst. reflexivity.
Defined.

(** C1 as first stated fails on a list of two groups, ["App"] and ["Db"]:
    the second entry is not computed at all.  The provider is never asked
    about ["Db"], no rule is added for it, and the account ends up with the
    group ["App"] alone. *)
Lemma apply_app_firewall_settings_second_group_not_computed :
  trace (snd (apply_app_firewall_settings two_groups
                (start empty_cloud refused)))
  = [Called (SecurityGroupsFind (VStr "App")) None;
     Called GetOrCreateDefault None;
     Called (SecurityGroupsCreate (VStr "App") (VStr "Created by CloudLaunch")
               (VStr "net-default")) None;
     Called (AddRule app_group
               (Explicit (VStr "tcp") (VStr "22") (VStr "22")
                  (VStr "0.0.0.0/0"))) None]
  /\ Sim.groups (cloud (snd (apply_app_firewall_settings two_groups
                               (start empty_cloud refused))))
     = [app_group]
  /\ Sim.named sg_name (VStr "Db")
       (Sim.groups (cloud (snd (apply_app_firewall_settings two_groups
                                  (start empty_cloud refused)))))
     = [].
Proof. repeat split. Qed.

Lemma wait_for_http_stops_when_ready_witness :
  (fst (wait_for_http "http://1.2.3.4/" default_max_retries
          default_poll_interval (start empty_cloud (up_after 2 401)))
   = Ok tt /\
   heads_done (snd (wait_for_http "http://1.2.3.4/" default_max_retries
                      default_poll_interval
                      (start empty_cloud (up_after 2 401))))
   = 3%nat)
  /\
  wait_for_http "http://1.2.3.4/" default_max_retries default_poll_interval
    (start empty_cloud refused)
  = (Ok tt,
     after_cycles 200 "http://1.2.3.4/" 5 (start empty_cloud refused)).
Proof.
  split.
  - refine (proj1 (wait_for_http_stops_when_ready_else_max_retries_cycles
                     "http://1.2.3.4/" default_max_retries
                     default_poll_interval
                     (start empty_cloud (up_after 2 401)) _) 2%nat _ _).
    + discriminate.
    + vm_compute. lia.
    + exists {| status_code := 401 |}. split; [reflexivity|]. now right; left.
  - refine (proj1 (proj2 (wait_for_http_stops_when_ready_else_max_retries_cycles
                            "http://1.2.3.4/" default_max_retries
                            default_poll_interval
                            (start empty_cloud refused) _) _)).
    + discriminate.
    + intros k. exists "connection refused". reflexivity.
Defined.

Lemma wait_for_http_swallows_other_http_errors_witness :
  wait_for_http "http://1.2.3.4/" 3 5 (start empty_cloud (answering 500))
  = (Ok tt,
     after_cycles 3 "http://1.2.3.4/" 5 (start empty_cloud (answering 500))).
Proof.
  refine (proj2 (wait_for_http_swallows_other_http_errors
                   "http://1.2.3.4/" 3 5 (start empty_cloud (answering 500)) _)
            _).
  - discriminate.
  - intros k. exists {| status_code := 500 |}.
    repeat split; try reflexivity; discriminate.
Defined.

(** C2 as first stated fails on a server that answers 500 to every
    request: with three attempts allowed, the three probes are sent and
    the call returns normally; no exception reaches the caller. *)
Lemma wait_for_http_500_does_not_propagate :
  fst (wait_for_http "http://1.2.3.4/" 3 5
         (start empty_cloud (answering 500)))
  = Ok tt
  /\ trace (snd (wait_for_http "http://1.2.3.4/" 3 5
                   (start empty_cloud (answering 500))))
     = [Slept 5; Head "http://1.2.3.4/"; Slept 5; Head "http://1.2.3.4/";
        Slept 5; Head "http://1.2.3.4/"]
  /\ fst (wait_for_http "http://1.2.3.4/" 3 5
            (start empty_cloud (answering 500)))
     <> Raise (HTTPError 500).
Proof.
  split; [reflexivity|]. split; [reflexivity|]. vm_compute. discriminate.
Qed.

Lemma empty_firewall_no_group_and_launch_with_none_witness :
  apply_app_firewall_settings (VDict [("firewall", VList [])])
    (start cloud_with_ip (answering 200))
  = (Ok None, start cloud_with_ip (answering 200))
  /\
  exists evs : list event,
    trace (snd (launch_app true "vm" cvc0 VNone no_firewall_app_config VNone
                  (start cloud_with_ip (answering 200))))
      = (trace (start cloud_with_ip (answering 200)) ++ evs)%list /\
    (forall (req : create_request) (raised : option exn),
        In (Called (InstancesCreate req) raised) evs ->
        req_security_groups req = [None]) /\
    forall res : LaunchResult,
      fst (launch_app true "vm" cvc0 VNone no_firewall_app_config VNone
             (start cloud_with_ip (answering 200))) <> Ok res.
Proof.
  destruct (empty_firewall_no_group_and_launch_with_none
              (P := Sim.Cloud) [("firewall", VList [])] (or_intror eq_refl))
    as [Hnone Hlaunch].
  split.
  - apply Hnone.
  - apply Hlaunch. reflexivity.
Defined.

(** C9. With an empty firewall list, [apply_app_firewall_settings] hands
    [None] to the orchestrator, without a call to the provider; but the
    orchestrator then builds no result from it.  It creates the instance
    with the security groups [[None]], waits for it, and fails on reading
    the [id] of that [None]: the [AttributeError] is what the caller gets. *)
Lemma launch_app_empty_firewall_builds_no_result :
  fst (launch_app true "vm" cvc0 VNone no_firewall_app_config VNone
         (start cloud_with_ip (answering 200)))
  = Raise (AttributeError "'NoneType' object has no attribute 'id'")
  /\
  apply_app_firewall_settings (VDict [("firewall", VList [])])
    (start cloud_with_ip (answering 200))
  = (Ok None, start cloud_with_ip (answering 200))
  /\
  last (trace (snd (launch_app true "vm" cvc0 VNone no_firewall_app_config
                      VNone (start cloud_with_ip (answering 200)))))
    (Slept 0)
  = Called (WaitTillReady {| inst_id := "i-0001"; public_ips := [] |}) None.
Proof. repeat split. Qed.

(** *** Runs for the further properties *)

Lemma get_or_create_kp_witness :
  _get_or_create_kp (VStr "mine") (start cloud_with_key_pair refused)
  = (Ok {| kp_id := "kp-1"; kp_name := "mine"; kp_material := None |},
     moved (start cloud_with_key_pair refused) cloud_with_key_pair
       [Called (KeyPairsFind (VStr "mine")) None])
  /\
  _get_or_create_kp (VStr "new") (start cloud_with_key_pair refused)
  = (Ok {| kp_id := "new"; kp_name := "new";
           kp_material := Some "PRIVATE KEY" |},
     moved (start cloud_with_key_pair refused)
       (Sim.set_key_pairs cloud_with_key_pair
          [{| kp_id := "kp-1"; kp_name := "mine"; kp_material := None |};
           {| kp_id := "new"; kp_name := "new";
              kp_material := Some "PRIVATE KEY" |}])
       [Called (KeyPairsFind (VStr "new")) None;
        Called (KeyPairsCreate (VStr "new")) None]).
Proof.
  split.
  - exact (proj1 (get_or_create_kp_first_found_else_one_creation
                    (VStr "mine") (start cloud_with_key_pair refused)
                    [{| kp_id := "kp-1"; kp_name := "mine";
                        kp_material := None |}]
                    cloud_with_key_pair eq_refl)
             _ [] eq_refl).
  - exact (proj2 (get_or_create_kp_first_found_else_one_creation
                    (VStr "new") (start cloud_with_key_pair refused)
                    [] cloud_with_key_pair eq_refl)
             eq_refl).
Defined.

Lemma get_or_create_sg_witness :
  _get_or_create_sg (VDict []) (VStr "App") (VStr "Created by CloudLaunch")
    (start cloud_with_app_group refused)
  = (Ok app_group,
     moved (start cloud_with_app_group refused) cloud_with_app_group
       [Called (SecurityGroupsFind (VStr "App")) None]).
Proof.
  exact (get_or_create_sg_first_match_else_network_and_creation
           (VDict []) (VStr "App") (VStr "Created by CloudLaunch")
           (start cloud_with_app_group refused) [app_group]
           cloud_with_app_group eq_refl).
Defined.

Lemma get_cb_launch_config_none_unless_volume_witness :
  _get_cb_launch_config None (VDict [("rootStorageType", VStr "Volume")])
    (start empty_cloud refused)
  = (Ok None, start empty_cloud refused).
Proof.
  apply (get_cb_launch_config_none_unless_volume None
           [("rootStorageType", VStr "Volume")] (VStr "Volume")).
  - reflexivity.
  - discriminate.
Defined.

Lemma get_cb_launch_config_bad_size_witness :
  _get_cb_launch_config None
    (VDict [("rootStorageType", VStr "volume");
            ("rootStorageSize", VStr "big")])
    (start empty_cloud refused)
  = (Raise (ValueError "invalid literal for int() with base 10"),
     moved (start empty_cloud refused) empty_cloud
       [Called CreateLaunchConfig None]).
Proof.
  apply (get_cb_launch_config_bad_size_raises_after_creation None
           [("rootStorageType", VStr "volume");
            ("rootStorageSize", VStr "big")]
           (VStr "big") _ {| block_devices := [] |}); reflexivity.
Defined.

Lemma apply_group_defaults_witness :
  apply_group (VDict []) (VDict [("rules", VList [ssh_rule])])
    (start empty_cloud refused)
  = apply_group (VDict [])
      (VDict [("securityGroup", VStr "CloudLaunchDefault");
              ("description", VStr "Created by CloudLaunch");
              ("rules", VList [ssh_rule])])
      (start empty_cloud refused).
Proof.
  apply (apply_group_defaults_name_and_description (VDict [])
           [("rules", VList [ssh_rule])]); reflexivity.
Defined.

Lemma apply_rule_src_group_witness :
  apply_rule app_group self_rule (start cloud_with_app_group refused)
  = apply_rule app_group (VDict [("src_group", VStr "sg-other")])
      (start cloud_with_app_group refused)
  /\
  exists raised : option exn,
    In (Called (AddRule app_group (SrcGroup app_group)) raised)
      (trace (snd (apply_rule app_group self_rule
                     (start cloud_with_app_group refused)))).
Proof.
  apply (apply_rule_src_group_ignores_the_rest app_group
           [("src_group", VStr "App"); ("from", VStr "1");
            ("to", VStr "65535"); ("protocol", VStr "tcp")]
           [("src_group", VStr "sg-other")]); reflexivity.
Defined.

Lemma apply_app_firewall_settings_malformed_witness :
  apply_app_firewall_settings (VDict [("firewall", VInt 3)])
    (start empty_cloud refused)
  = (Raise (TypeError "object is not iterable"), start empty_cloud refused)
  /\
  apply_app_firewall_settings (VDict [("firewall", VList [VStr "App"])])
    (start empty_cloud refused)
  = (Raise (AttributeError "object has no attribute 'get'"),
     start empty_cloud refused).
Proof.
  split.
  - apply (proj1 (apply_app_firewall_settings_malformed_fails_untouched
                    [("firewall", VInt 3)] _ (start empty_cloud refused))
             (VInt 3)); reflexivity.
  - apply (proj2 (apply_app_firewall_settings_malformed_fails_untouched
                    [("firewall", VList [VStr "App"])] _
                    (start empty_cloud refused))
             (VStr "App") []); reflexivity.
Defined.

Lemma apply_app_firewall_settings_none_witness :
  start empty_cloud refused = start empty_cloud refused /\
  exists fw : value,
    dict_get (VDict []) "firewall" (VList []) = Ok fw /\ py_iter fw = Ok [].
Proof.
  apply (apply_app_firewall_settings_none_only_when_empty (VDict [])
           (start empty_cloud refused) (start empty_cloud refused)).
  reflexivity.
Defined.

Lemma process_app_config_witness :
  process_app_config "vm" cvc0 VNone (VDict []) = Ok (VDict [])
  /\
  process_app_config "vm" cvc0 VNone
    (VDict [("config_cloudlaunch",
             VDict [("instance_user_data", VStr "#!/bin/sh")])])
  = Ok (VStr "#!/bin/sh")
  /\
  process_app_config "vm" cvc0 VNone (VDict [("config_cloudlaunch", VNone)])
  = Raise (AttributeError "object has no attribute 'get'").
Proof.
  split; [|split].
  - exact (proj1 (process_app_config_user_data_or_empty_dict
                    "vm" cvc0 VNone []) eq_refl).
  - exact (proj1 (proj2 (process_app_config_user_data_or_empty_dict
                           "vm" cvc0 VNone
                           [("config_cloudlaunch",
                             VDict [("instance_user_data",
                                     VStr "#!/bin/sh")])]))
             [("instance_user_data", VStr "#!/bin/sh")] eq_refl).
  - apply (proj2 (proj2 (process_app_config_user_data_or_empty_dict
                           "vm" cvc0 VNone [("config_cloudlaunch", VNone)]))
             VNone); [reflexivity | discriminate].
Defined.

Lemma wait_for_http_redirect_is_ready_witness :
  wait_for_http "http://1.2.3.4/" default_max_retries default_poll_interval
    (start empty_cloud (up_after 2 301))
  = (Ok tt,
     after_cycles 3 "http://1.2.3.4/" 5 (start empty_cloud (up_after 2 301))).
Proof.
  apply (wait_for_http_any_status_below_400_is_ready
           "http://1.2.3.4/" default_max_retries default_poll_interval 2
           (start empty_cloud (up_after 2 301))).
  - discriminate.
  - reflexivity.
  - intros i Hi. left. exists "connection refused".
    destruct i as [|[|i]]; [reflexivity | reflexivity | lia].
  - exists {| status_code := 301 |}. split; [reflexivity|].
    left. reflexivity.
Defined.

Lemma wait_for_http_read_timeout_propagates_witness :
  wait_for_http "http://1.2.3.4/" default_max_retries default_poll_interval
    (start empty_cloud (times_out_after 1))
  = (Raise (RequestException "read timed out"),
     after_cycles 2 "http://1.2.3.4/" 5
       (start empty_cloud (times_out_after 1))).
Proof.
  apply (wait_for_http_unexpected_failure_propagates
           "http://1.2.3.4/" default_max_retries default_poll_interval 1
           (RequestException "read timed out")
           (start empty_cloud (times_out_after 1))).
  - discriminate.
  - reflexivity.
  - intros i Hi. left. exists "connection refused".
    destruct i as [|i]; [reflexivity | lia].
  - reflexivity.
  - split; intros ?; discriminate.
Defined.

Lemma attach_public_ip_returns_the_attached_address_witness :
  exists evs : list event,
    trace (snd (attach_public_ip bare_instance (start cloud_with_ip refused)))
    = (trace (start cloud_with_ip refused) ++ evs
       ++ [Called (AddFloatingIp bare_instance
                     (address_value (Some "1.2.3.4"))) None])%list.
Proof.
  apply (attach_public_ip_returns_the_attached_address bare_instance
           (start cloud_with_ip refused) (Some "1.2.3.4")
           (snd (attach_public_ip bare_instance (start cloud_with_ip refused))));
    reflexivity.
Defined.

Lemma launch_app_result_url_follows_address_witness :
  Some "http://1.2.3.4/" = url_for true (Some "1.2.3.4")
  /\
  Some "N/A" = url_for true None.
Proof.
  split.
  - apply (launch_app_result_url_follows_address true "vm" cvc0 VNone
             app_config_one_group VNone (start cloud_with_ip (answering 200))
             {| keyPair := ("cloudlaunch_key_pair", "cloudlaunch_key_pair",
                            Some "PRIVATE KEY");
                securityGroup := ("sg-App", "App");
                instance := "i-0001";
                publicIP := Some "1.2.3.4";
                applicationURL := Some "http://1.2.3.4/" |}
             (snd (launch_app true "vm" cvc0 VNone app_config_one_group VNone
                     (start cloud_with_ip (answering 200))))).
    vm_compute. reflexivity.
  - apply (launch_app_result_url_follows_address true "vm" cvc0 VNone
             app_config_one_group VNone
             (start cloud_booting_without_address refused)
             {| keyPair := ("cloudlaunch_key_pair", "cloudlaunch_key_pair",
                            Some "PRIVATE KEY");
                securityGroup := ("sg-App", "App");
                instance := "i-0001";
                publicIP := None;
                applicationURL := Some "N/A" |}
             (snd (launch_app true "vm" cvc0 VNone app_config_one_group VNone
                     (start cloud_booting_without_address refused)))).
    vm_compute. reflexivity.
Defined.
